(** * Track and pattern handlers of yapmidi ([ymidi/handlers/track.py])

    A shallow embedding of the handler functions of
    [ymidi/handlers/track.py] over a small model of the Python object
    store, followed by the properties of the handlers.

    The handlers are Python functions [(container, event, index)] that read
    and assign attributes of mutable objects and index list-like
    containers.  They are embedded as computations in a state-and-exception
    monad over an explicit object store, so that attribute assignment,
    aliasing, missing attributes ([AttributeError]), unbound names
    ([NameError]) and bad indices ([IndexError]) are all visible. *)

From stdpp Require Import base gmap list strings.
From Stdlib Require Import ZArith QArith Qround Lia.

#[local] Open Scope Z_scope.

(** ** Python numbers

    Python [int] is unbounded and is modelled by [Z].  Python [float]
    (IEEE-754 binary64) is kept abstract: the handlers only add, subtract
    and compare numbers, and none of the properties below depends on how
    floating-point arithmetic rounds. *)

Class PyFloat := {
  pyfloat : Type;
  float_add : pyfloat → pyfloat → pyfloat;
  float_sub : pyfloat → pyfloat → pyfloat;
  float_leb : pyfloat → pyfloat → bool;
  float_eqb : pyfloat → pyfloat → bool;
  (** [float(n)] for an [int] operand of mixed arithmetic; [None] stands
      for the [OverflowError] of an integer too large for a float. *)
  float_of_int : Z → option pyfloat;
  (** Mixed comparisons are exact in Python (no conversion). *)
  int_leb_float : Z → pyfloat → bool;
  float_leb_int : pyfloat → Z → bool;
  float_eqb_int : pyfloat → Z → bool;
}.

(** Object identities (addresses in the store). *)
Definition loc := nat.

(** Python exceptions the handlers can raise. *)
Inductive exn :=
| AttributeError (name : string)
| NameError (name : string)
| TypeError
| IndexError
| OverflowError
| ZeroDivisionError
| ExternalError (msg : string)
  (** [InvalidReference] is not a Python exception: it marks a reference to
      an address outside the store, which no Python program can hold. *)
| InvalidReference.

#[global] Instance exn_eq_dec : EqDecision exn.
Proof. solve_decision. Defined.

(** Result of running a piece of Python: a value, or a raised exception. *)
Inductive outcome (A : Type) :=
| Ok (a : A)
| Raise (e : exn).
Arguments Ok {A} a.
Arguments Raise {A} e.

Section Model.
Context {F : PyFloat}.

(** ** Values and objects *)

Inductive value :=
| VNone
| VBool (b : bool)
| VInt (z : Z)
| VFloat (f : pyfloat)
| VStr (s : string)
| VRef (l : loc)               (** reference to a mutable object *)
| VGlobal (name : string).     (** a module-level class or function *)

(** Modelled from the spec: the classes Track and Pattern
    ([ymidi.containers]) and the event classes ([ymidi.events]) are not
    part of this module.  Following the spec's data model and its
    container primitive (ordered sequence with indexed read, append,
    length and membership), an instance is a plain Python object: a
    dictionary of named attributes, plus the ordered sequence it holds
    when it is a container (Track, Pattern).  Assigning an attribute
    stores under exactly that name. *)
Record obj := Obj {
  attrs : gmap string value;
  items : option (list value);
}.

(** Method calls on objects whose class is outside this module. *)
Inductive call :=
| MethodCall (recv : loc) (name : string) (args : list value).

(** The store, and the trace of method calls made on outside classes. *)
Record state := State {
  heap : gmap loc obj;
  trace : list call;
}.

(** ** The monad *)

Definition M (A : Type) : Type := state → outcome A * state.

#[global] Instance M_ret : MRet M := λ A a σ, (Ok a, σ).

#[global] Instance M_bind : MBind M := λ A B k m σ,
  match m σ with
  | (Ok a, σ') => k a σ'
  | (Raise e, σ') => (Raise e, σ')
  end.

Definition raise {A} (e : exn) : M A := λ σ, (Raise e, σ).

Definition lift {A} (r : outcome A) : M A := λ σ, (r, σ).

(** ** Code outside this module

    [de_to_ms], [ms_to_de] and [ytime] are imported from [ymidi.misc];
    the methods of the container classes ([append], [rehandle]) and the
    constructor of Track live in [ymidi.containers].  They are
    parameters of the development. *)
Class Externals := {
  de_to_ms : value → value → value → outcome value;
  ms_to_de : value → value → value → outcome value;
  ytime : M value;
  invoke_method :
    loc → string → list value → gmap loc obj →
    outcome value * gmap loc obj;
  construct :
    string → list value → gmap loc obj → outcome value * gmap loc obj;
}.

Context {E : Externals}.

(** ** Arithmetic and comparison *)

Inductive number :=
| NInt (z : Z)
| NFloat (f : pyfloat).

(** [bool] is a subclass of [int] in Python. *)
Definition to_number (v : value) : option number :=
  match v with
  | VBool b => Some (NInt (Z.b2z b))
  | VInt z => Some (NInt z)
  | VFloat f => Some (NFloat f)
  | _ => None
  end.

Definition float_binop (op : pyfloat → pyfloat → pyfloat)
    (x y : option pyfloat) : outcome value :=
  match x, y with
  | Some a, Some b => Ok (VFloat (op a b))
  | _, _ => Raise OverflowError
  end.

Definition num_add (x y : number) : outcome value :=
  match x, y with
  | NInt a, NInt b => Ok (VInt (a + b))
  | NInt a, NFloat b => float_binop float_add (float_of_int a) (Some b)
  | NFloat a, NInt b => float_binop float_add (Some a) (float_of_int b)
  | NFloat a, NFloat b => Ok (VFloat (float_add a b))
  end.

Definition num_sub (x y : number) : outcome value :=
  match x, y with
  | NInt a, NInt b => Ok (VInt (a - b))
  | NInt a, NFloat b => float_binop float_sub (float_of_int a) (Some b)
  | NFloat a, NInt b => float_binop float_sub (Some a) (float_of_int b)
  | NFloat a, NFloat b => Ok (VFloat (float_sub a b))
  end.

Definition num_leb (x y : number) : bool :=
  match x, y with
  | NInt a, NInt b => a <=? b
  | NInt a, NFloat b => int_leb_float a b
  | NFloat a, NInt b => float_leb_int a b
  | NFloat a, NFloat b => float_leb a b
  end.

Definition num_eqb (x y : number) : bool :=
  match x, y with
  | NInt a, NInt b => a =? b
  | NInt a, NFloat b => float_eqb_int b a
  | NFloat a, NInt b => float_eqb_int a b
  | NFloat a, NFloat b => float_eqb a b
  end.

(** [a + b] *)
Definition py_add (a b : value) : outcome value :=
  match to_number a, to_number b with
  | Some x, Some y => num_add x y
  | _, _ =>
      match a, b with
      | VStr s, VStr t => Ok (VStr (s +:+ t))
      | _, _ => Raise TypeError
      end
  end.

(** [a - b] *)
Definition py_sub (a b : value) : outcome value :=
  match to_number a, to_number b with
  | Some x, Some y => num_sub x y
  | _, _ => Raise TypeError
  end.

(** [a <= b] *)
Definition py_le (a b : value) : outcome bool :=
  match to_number a, to_number b with
  | Some x, Some y => Ok (num_leb x y)
  | _, _ =>
      match a, b with
      | VStr s, VStr t => Ok (String.leb s t)
      | _, _ => Raise TypeError
      end
  end.

(** [a == b]; objects compare by identity. *)
Definition py_eq (a b : value) : bool :=
  match to_number a, to_number b with
  | Some x, Some y => num_eqb x y
  | _, _ =>
      match a, b with
      | VNone, VNone => true
      | VStr s, VStr t => String.eqb s t
      | VRef l, VRef k => Nat.eqb l k
      | VGlobal n, VGlobal m => String.eqb n m
      | _, _ => false
      end
  end.

(** [a != b] *)
Definition py_ne (a b : value) : bool := negb (py_eq a b).

(** ** Objects: attributes and sequences *)

(** Follow a reference; [e] is raised when [v] is not an object. *)
Definition deref (v : value) (e : exn) : M (loc * obj) := λ σ,
  match v with
  | VRef l =>
      match heap σ !! l with
      | Some o => (Ok (l, o), σ)
      | None => (Raise InvalidReference, σ)
      end
  | _ => (Raise e, σ)
  end.

Definition store (l : loc) (o : obj) : M unit := λ σ,
  (Ok tt, {| heap := <[l := o]> (heap σ); trace := trace σ |}).

(** The data attributes of Python's built-in numbers: an [int] (and a
    [bool], which is one) has [numerator], [denominator], [real] and
    [imag]; a [float] has [real].  Among the names the handlers read, only
    [numerator] and [denominator] exist on a built-in value. *)
Definition builtin_attr (v : value) (name : string) : option value :=
  match v with
  | VInt z =>
      if String.eqb name "numerator" || String.eqb name "real"
      then Some (VInt z)
      else if String.eqb name "denominator" then Some (VInt 1)
      else if String.eqb name "imag" then Some (VInt 0)
      else None
  | VBool b =>
      if String.eqb name "numerator" || String.eqb name "real"
      then Some (VInt (Z.b2z b))
      else if String.eqb name "denominator" then Some (VInt 1)
      else if String.eqb name "imag" then Some (VInt 0)
      else None
  | VFloat f => if String.eqb name "real" then Some (VFloat f) else None
  | _ => None
  end.

(** [v.name] *)
Definition getattr (v : value) (name : string) : M value :=
  match builtin_attr v name with
  | Some x => mret x
  | None =>
      '(l, o) ← deref v (AttributeError name);
      match attrs o !! name with
      | Some x => mret x
      | None => raise (AttributeError name)
      end
  end.

(** [v.name = x] *)
Definition setattr (v : value) (name : string) (x : value) : M unit :=
  '(l, o) ← deref v (AttributeError name);
  store l {| attrs := <[name := x]> (attrs o); items := items o |}.

(** The sequence held by a container. *)
Definition sequence_of (v : value) : M (list value) :=
  '(l, o) ← deref v TypeError;
  match items o with
  | Some its => mret its
  | None => raise TypeError
  end.

(** [len(v)] *)
Definition py_len (v : value) : M Z :=
  its ← sequence_of v;
  mret (Z.of_nat (length its)).

(** Python list indexing: negative indices count from the end, anything
    outside [-len, len) raises [IndexError]. *)
Definition index_list (its : list value) (i : Z) : outcome value :=
  let n := Z.of_nat (length its) in
  let j := if i <? 0 then i + n else i in
  if (0 <=? j) && (j <? n) then
    match its !! Z.to_nat j with
    | Some x => Ok x
    | None => Raise IndexError
    end
  else Raise IndexError.

(** [v[i]] for an integer [i] *)
Definition getitem (v : value) (i : Z) : M value :=
  its ← sequence_of v;
  lift (index_list its i).

(** An index given as a Python value must be an [int]. *)
Definition as_index (v : value) : outcome Z :=
  match v with
  | VInt z => Ok z
  | VBool b => Ok (Z.b2z b)
  | _ => Raise TypeError
  end.

(** [x in v]: some held item is [x] or equals [x]. *)
Definition py_contains (v x : value) : M bool :=
  its ← sequence_of v;
  mret (existsb (λ item, py_eq item x) its).

(** [for x in v]: the items iterated over. *)
Definition py_iter (v : value) : M (list value) := sequence_of v.

(** [range(n)] *)
Definition py_range (n : value) : M (list Z) :=
  k ← lift (as_index n);
  mret (map Z.of_nat (seq 0 (Z.to_nat k))).

(** Body of a [for] loop, run once per item. *)
Fixpoint for_each {A} (l : list A) (body : A → M unit) : M unit :=
  match l with
  | [] => mret tt
  | x :: l' => body x;; for_each l' body
  end.

(** ** Names and calls *)

(** The names bound in the module's namespace when its functions run.
    [Track] and [Pattern] are imported under [if TYPE_CHECKING:] only
    (lines 29-30), and [TYPE_CHECKING] is [False] at run time, so they
    are not among them. *)
Definition module_globals : list string :=
  [ "annotations"; "TYPE_CHECKING"; "BaseEvent"; "StartPattern";
    "EndOfTrack"; "InstrumentName"; "SetTempo"; "TimeSignature";
    "TrackName"; "de_to_ms"; "ms_to_de"; "ytime";
    "track_name"; "instrument_name"; "set_tempo"; "time_signature";
    "global_tempo"; "start_pattern"; "create_tracks"; "sort_events";
    "stop_track"; "event_tick"; "event_time"; "event_delta_time";
    "determine_delta"; "set_division"; "rehandle"; "time_profile" ]%string.

(** Evaluating a bare name that is not a local variable or a builtin. *)
Definition lookup_global (name : string) : M value :=
  if existsb (String.eqb name) module_globals
  then mret (VGlobal name)
  else raise (NameError name).

(** [recv.name]: loading a bound method.  The methods the handlers call
    ([append], [rehandle]) are those of the containers; any other object
    has no such attribute. *)
Definition load_method (recv : value) (name : string) : M loc :=
  '(l, o) ← deref recv (AttributeError name);
  match items o with
  | Some _ => mret l
  | None => raise (AttributeError name)
  end.

(** Calling a bound method; the call is recorded in the trace. *)
Definition call_method (l : loc) (name : string) (args : list value)
    : M value := λ σ,
  let '(r, h) := invoke_method l name args (heap σ) in
  (r, {| heap := h; trace := trace σ ++ [MethodCall l name args] |}).

(** [f(args)] for a module-level class [f]. *)
Definition py_call (f : value) (args : list value) : M value := λ σ,
  match f with
  | VGlobal name =>
      let '(r, h) := construct name args (heap σ) in
      (r, {| heap := h; trace := trace σ |})
  | _ => (Raise TypeError, σ)
  end.

(** ** The handlers

    Each handler takes the container, the event and the index, in the
    order of the Python signature, and returns the Python return value
    ([None] where the function has no [return] with a value).  Attribute
    reads and writes appear in Python's evaluation order. *)

Definition handler : Type := value → value → Z → M value.

(** [track.name = event.text] *)
Definition track_name : handler := λ track event index,
  text ← getattr event "text";
  setattr track "name" text;;
  mret VNone.

(** [track.instrument = event.text] *)
Definition instrument_name : handler := λ track event index,
  text ← getattr event "text";
  setattr track "instrument" text;;
  mret VNone.

(** [track.msb = event.tempo] (line 77) *)
Definition set_tempo : handler := λ track event index,
  tempo ← getattr event "tempo";
  setattr track "msb" tempo;;
  mret VNone.

(** [track.timesig_den = event.denominator], then
    [track.timesig_num = event.numerator] *)
Definition time_signature : handler := λ track event index,
  den ← getattr event "denominator";
  setattr track "timesig_den" den;;
  num ← getattr event "numerator";
  setattr track "timesig_num" num;;
  mret VNone.

(** [for track in Pattern: track.mpb = event.tempo] (lines 113-117): the
    loop iterates over the name [Pattern], not over the handler's first
    argument. *)
Definition global_tempo : handler := λ track event index,
  cls ← lookup_global "Pattern";
  its ← py_iter cls;
  for_each its (λ track',
    tempo ← getattr event "tempo";
    setattr track' "mpb" tempo);;
  mret VNone.

(** [pattern.divisions = event.divisions] *)
Definition start_pattern : handler := λ pattern event index,
  d ← getattr event "divisions";
  setattr pattern "divisions" d;;
  mret VNone.

(** [for _ in range(event.num_tracks): pattern.append(Track())]
    (lines 153-155) *)
Definition create_tracks : handler := λ pattern event index,
  n ← getattr event "num_tracks";
  rng ← py_range n;
  for_each rng (λ _,
    append ← load_method pattern "append";
    cls ← lookup_global "Track";
    t ← py_call cls [];
    call_method append "append" [t];;
    mret tt);;
  mret VNone.

(** [pattern[pattern.track_index].append(event)] *)
Definition sort_events : handler := λ pattern event index,
  k ← getattr pattern "track_index";
  i ← lift (as_index k);
  trk ← getitem pattern i;
  append ← load_method trk "append";
  call_method append "append" [event];;
  mret VNone.

(** [pattern.track_index += 1] *)
Definition stop_track : handler := λ pattern event index,
  k ← getattr pattern "track_index";
  k' ← lift (py_add k (VInt 1));
  setattr pattern "track_index" k';;
  mret VNone.

(** [offset] is [container[index-1].tick] when [index > 0], else 0;
    [event.tick = offset + event.delta] *)
Definition event_tick : handler := λ container event index,
  offset ← (if 0 <? index
            then prev ← getitem container (index - 1); getattr prev "tick"
            else mret (VInt 0));
  delta ← getattr event "delta";
  tick ← lift (py_add offset delta);
  setattr event "tick" tick;;
  mret VNone.

(** [offset] is [container[index-1].time] when [index > 0], else 0;
    [event.time] is [offset] plus
    [de_to_ms(event.delta, container.division, container._mpb)] *)
Definition event_time : handler := λ container event index,
  offset ← (if 0 <? index
            then prev ← getitem container (index - 1); getattr prev "time"
            else mret (VInt 0));
  delta ← getattr event "delta";
  division ← getattr container "division";
  mpb ← getattr container "_mpb";
  ms ← lift (de_to_ms delta division mpb);
  time ← lift (py_add offset ms);
  setattr event "time" time;;
  mret VNone.

(** [event.delta_time
       = de_to_ms(event.delta, container.division, container._mpb)] *)
Definition event_delta_time : handler := λ container event index,
  delta ← getattr event "delta";
  division ← getattr container "division";
  mpb ← getattr container "_mpb";
  ms ← lift (de_to_ms delta division mpb);
  setattr event "delta_time" ms;;
  mret VNone.

(** The rules of [determine_delta], each ending in a [return]:
    a nonzero [event.delta] (line 277); a nonzero [event.delta_time],
    converted with [container.division] and [container.tempo] (line 289);
    then, against the tick and time of [container[-1]] (0 and 0 for an
    empty container), an [event.tick] not before it (line 311), an
    [event.time] not before it, converted with [container.track] and
    [container.tempo] (line 321), and a tick and time both 0 (line 327).
    After the last test the function ends (lines 333-334). *)
Definition determine_delta : handler := λ container event index,
  delta ← getattr event "delta";
  if py_ne delta (VInt 0) then mret VNone else
  delta_time ← getattr event "delta_time";
  if py_ne delta_time (VInt 0) then
    dt ← getattr event "delta_time";
    division ← getattr container "division";
    tempo ← getattr container "tempo";
    d ← lift (ms_to_de dt division tempo);
    setattr event "delta" d;;
    mret VNone
  else
  n ← py_len container;
  '(tick_before, time_before) ←
    (if 0 <? n
     then last1 ← getitem container (-1);
          tb ← getattr last1 "tick";
          last2 ← getitem container (-1);
          mb ← getattr last2 "time";
          mret (tb, mb)
     else mret (VInt 0, VInt 0));
  tick ← getattr event "tick";
  tick_ok ← lift (py_le tick_before tick);
  if (tick_ok : bool) then
    tick' ← getattr event "tick";
    d ← lift (py_sub tick' tick_before);
    setattr event "delta" d;;
    mret VNone
  else
  time ← getattr event "time";
  time_ok ← lift (py_le time_before time);
  if (time_ok : bool) then
    time' ← getattr event "time";
    elapsed ← lift (py_sub time' time_before);
    track ← getattr container "track";
    tempo ← getattr container "tempo";
    d ← lift (ms_to_de elapsed track tempo);
    setattr event "delta" d;;
    mret VNone
  else
  time'' ← getattr event "time";
  if py_eq time'' (VInt 0) then
    tick'' ← getattr event "tick";
    if py_eq tick'' (VInt 0) then mret VNone else mret VNone
  else mret VNone.

(** [event.division = container._division; return True] *)
Definition set_division : handler := λ container event index,
  d ← getattr container "_division";
  setattr event "division" d;;
  mret (VBool true).

(** [if index < len(container) and event not in container:
       container.rehandle()] *)
Definition rehandle : handler := λ container event index,
  n ← py_len container;
  if index <? n then
    present ← py_contains container event;
    if negb present then
      m ← load_method container "rehandle";
      call_method m "rehandle" [];;
      mret VNone
    else mret VNone
  else mret VNone.

(** [current = ytime(); event.exit_time = current;
     event.exit_delta = current - container.start_time] *)
Definition time_profile : handler := λ container event index,
  current ← ytime;
  setattr event "exit_time" current;;
  start ← getattr container "start_time";
  d ← lift (py_sub current start);
  setattr event "exit_delta" d;;
  mret VNone.

(** ** The mutation chain *)

(** [bool(v)]: Python truthiness; a container is false when empty. *)
Definition truthy (v : value) : M bool :=
  match v with
  | VNone => mret false
  | VBool b => mret b
  | VInt z => mret (negb (z =? 0))
  | VFloat f => mret (negb (float_eqb_int f 0))
  | VStr s => mret (negb (String.eqb s EmptyString))
  | VRef l =>
      '(_, o) ← deref v TypeError;
      match items o with
      | Some its => mret (negb (Nat.eqb (length its) 0))
      | None => mret true
      end
  | VGlobal _ => mret true
  end.

(** Modelled from the spec: the dispatch framework that runs the handlers
    is not part of this module.  Its contract is the one of the module
    docstring (lines 16-17) and of the spec's mutation chain: the handlers
    bound to an insertion run in their declared order, and a handler
    returning anything that does not evaluate to false stops the chain.
    [run_chain] returns whether the chain was stopped; an exception raised
    by a handler propagates. *)
Fixpoint run_chain (hs : list handler) (container event : value)
    (index : Z) : M bool :=
  match hs with
  | [] => mret false
  | h :: hs' =>
      r ← h container event index;
      stop ← truthy r;
      if (stop : bool) then mret true
      else run_chain hs' container event index
  end.

(** The handlers by name. *)
Inductive handler_name :=
| h_track_name | h_instrument_name | h_set_tempo | h_time_signature
| h_global_tempo | h_start_pattern | h_create_tracks | h_sort_events
| h_stop_track | h_event_tick | h_event_time | h_event_delta_time
| h_determine_delta | h_set_division | h_rehandle | h_time_profile.

#[global] Instance handler_name_eq_dec : EqDecision handler_name.
Proof. solve_decision. Defined.

Definition handler_of (n : handler_name) : handler :=
  match n with
  | h_track_name => track_name
  | h_instrument_name => instrument_name
  | h_set_tempo => set_tempo
  | h_time_signature => time_signature
  | h_global_tempo => global_tempo
  | h_start_pattern => start_pattern
  | h_create_tracks => create_tracks
  | h_sort_events => sort_events
  | h_stop_track => stop_track
  | h_event_tick => event_tick
  | h_event_time => event_time
  | h_event_delta_time => event_delta_time
  | h_determine_delta => determine_delta
  | h_set_division => set_division
  | h_rehandle => rehandle
  | h_time_profile => time_profile
  end.

(** ** Reading and describing states *)

(** The attribute [name] of the object at [l], if both exist. *)
Definition attr_of (σ : state) (l : loc) (name : string) : option value :=
  o ← heap σ !! l; attrs o !! name.

(** The sequence held by the container at [l]. *)
Definition items_of (σ : state) (l : loc) : option (list value) :=
  o ← heap σ !! l; items o.

(** The state [σ] after the assignment [l.name = x]. *)
Definition assign (σ : state) (l : loc) (name : string) (x : value)
    : state :=
  match heap σ !! l with
  | Some o =>
      {| heap := <[l := {| attrs := <[name := x]> (attrs o);
                           items := items o |}]> (heap σ);
         trace := trace σ |}
  | None => σ
  end.

(** The field [field] of the event at index [i - 1] of the container at
    [c], or 0 when [i = 0]. *)
Definition previous (σ : state) (c : loc) (i : Z) (field : string)
    : option value :=
  if i =? 0 then Some (VInt 0)
  else
    its ← items_of σ c;
    p ← its !! Z.to_nat (i - 1);
    match p with
    | VRef l => attr_of σ l field
    | _ => None
    end.

(** The tick and time [determine_delta] compares against: those of the
    last event the container holds, or 0 for an empty container. *)
Definition last_position (σ : state) (c : loc) : option (value * value) :=
  its ← items_of σ c;
  match last its with
  | None => Some (VInt 0, VInt 0)
  | Some (VRef l) =>
      tick ← attr_of σ l "tick"; time ← attr_of σ l "time";
      Some (tick, time)
  | Some _ => None
  end.

(** The cursor invariant of a Pattern:
    [0 <= track_index <= length(tracks)]. *)
Definition pattern_inv (σ : state) (p : loc) : Prop :=
  ∃ k its,
    attr_of σ p "track_index" = Some (VInt k) ∧
    items_of σ p = Some its ∧
    0 ≤ k ≤ Z.of_nat (length its).


(** Whenever the computation [m] returns, it returns [r]. *)
Definition returns_only (r : value) (m : M value) : Prop :=
  ∀ σ v σ', m σ = (Ok v, σ') → v = r.

(** The computation [m] never changes the state. *)
Definition readonly {A} (m : M A) : Prop := ∀ σ, (m σ).2 = σ.

(** Whenever the computation [m] raises, the state is as it found it. *)
Definition fails_clean {A} (m : M A) : Prop :=
  ∀ σ x σ', m σ = (Raise x, σ') → σ' = σ.

(** The computation [m] makes no method call, changes the sequence of no
    container, and changes no attribute outside [W]. *)
Definition frame {A} (W : loc → string → Prop) (m : M A) : Prop :=
  ∀ σ,
    trace (m σ).2 = trace σ ∧
    (∀ l, items_of (m σ).2 l = items_of σ l) ∧
    (∀ l name, ¬ W l name → attr_of (m σ).2 l name = attr_of σ l name).

(** The attributes a handler assigns (the targets of its assignment
    statements that can be reached), and the argument it assigns them on:
    the event for the handlers that resolve an event's position and for
    [set_division], the container for the others. *)
Definition writes (n : handler_name) : list string :=
  match n with
  | h_track_name => ["name"]
  | h_instrument_name => ["instrument"]
  | h_set_tempo => ["msb"]
  | h_time_signature => ["timesig_den"; "timesig_num"]
  | h_start_pattern => ["divisions"]
  | h_stop_track => ["track_index"]
  | h_event_tick => ["tick"]
  | h_event_time => ["time"]
  | h_event_delta_time => ["delta_time"]
  | h_determine_delta => ["delta"]
  | h_set_division => ["division"]
  | h_time_profile => ["exit_time"; "exit_delta"]
  | h_global_tempo | h_create_tracks | h_sort_events | h_rehandle => []
  end%string.

Definition target (n : handler_name) (container event : value) : value :=
  match n with
  | h_event_tick | h_event_time | h_event_delta_time | h_determine_delta
  | h_set_division | h_time_profile => event
  | _ => container
  end.

(** The ticks of the events [its] are the running sums of their deltas,
    starting from [offset]: the result is the tick of the last one
    ([offset] for no event), or [None] when some event's tick is not its
    predecessor's tick plus its own delta. *)
Fixpoint ticks_resolved (σ : state) (offset : Z) (its : list value)
    : option Z :=
  match its with
  | [] => Some offset
  | VRef l :: rest =>
      match attr_of σ l "delta", attr_of σ l "tick" with
      | Some (VInt d), Some (VInt t) =>
          if t =? offset + d then ticks_resolved σ t rest else None
      | _, _ => None
      end
  | _ :: _ => None
  end.

End Model.

(** The model of floats is read off the expected type of a float value. *)
Arguments VFloat {F} & f.

(** ** A concrete environment

    The properties below hold for every model of floats and every
    behaviour of the outside code.  To run the handlers on concrete inputs
    one environment is fixed here: floats are exact rationals, and the
    converters follow the spec's formulas. *)

Definition rational_float : PyFloat := {|
  pyfloat := Q;
  float_add a b := Qred (a + b);
  float_sub a b := Qred (a - b);
  float_leb := Qle_bool;
  float_eqb := Qeq_bool;
  float_of_int z := Some (inject_Z z);
  int_leb_float z q := Qle_bool (inject_Z z) q;
  float_leb_int q z := Qle_bool q (inject_Z z);
  float_eqb_int q z := Qeq_bool q (inject_Z z);
|}.

Definition number_to_Q (n : @number rational_float) : Q :=
  match n with
  | NInt z => inject_Z z
  | NFloat q => q
  end.

(** Modelled from the spec: [de_to_ms] of [ymidi.misc] is not part of this
    module.  The spec's time converter gives
    [ticks * microseconds_per_beat / division / 1000] milliseconds. *)
Definition spec_de_to_ms (ticks division mpb : @value rational_float)
    : outcome (@value rational_float) :=
  match to_number ticks, to_number division, to_number mpb with
  | Some t, Some d, Some m =>
      if Qeq_bool (number_to_Q d) 0 then Raise ZeroDivisionError
      else Ok (VFloat (F := rational_float)
                 (Qred (number_to_Q t * number_to_Q m / number_to_Q d
                        / inject_Z 1000)))
  | _, _, _ => Raise TypeError
  end.

(** Modelled from the spec: [ms_to_de] of [ymidi.misc] is not part of this
    module.  The spec describes it as the inverse of the conversion above
    and leaves the rounding open; this instance rounds down. *)
Definition spec_ms_to_de (ms division mpb : @value rational_float)
    : outcome (@value rational_float) :=
  match to_number ms, to_number division, to_number mpb with
  | Some t, Some d, Some m =>
      if Qeq_bool (number_to_Q m) 0 then Raise ZeroDivisionError
      else Ok (VInt (Qfloor (number_to_Q t * inject_Z 1000 * number_to_Q d
                             / number_to_Q m)))
  | _, _, _ => Raise TypeError
  end.

(** Modelled from the spec: the methods of the container classes are not
    part of this module.  In this environment [append] stores the item at
    the end of the receiver's sequence (the spec's container primitive) and
    every other method leaves the store as it is. *)
Definition sample_invoke (l : loc) (name : string)
    (args : list (@value rational_float))
    (h : gmap loc (@obj rational_float))
    : outcome (@value rational_float) * gmap loc (@obj rational_float) :=
  if String.eqb name "append" then
    match h !! l, args with
    | Some {| attrs := a; items := Some its |}, [x] =>
        (Ok VNone, <[l := {| attrs := a; items := Some (its ++ [x]) |}]> h)
    | _, _ => (Raise TypeError, h)
    end
  else (Ok VNone, h).

Definition sample_externals : @Externals rational_float := {|
  de_to_ms := spec_de_to_ms;
  ms_to_de := spec_ms_to_de;
  ytime := mret (VFloat (F := rational_float) 0%Q);
  invoke_method := sample_invoke;
  construct name args h := (Raise (ExternalError name), h);
|}.

(** ** Concrete stores

    The objects below are built as the spec's data model describes them.
    Address 0 holds the container, the following addresses what it holds,
    and the event being handled comes last. *)

Section Samples.
#[local] Existing Instance rational_float.
#[local] Existing Instance sample_externals.

(** Modelled from the spec: a Track ([ymidi.containers], not part of
    this module) carries a name, an instrument, a tempo in microseconds
    per beat (read as [tempo] and as [_mpb] by the handlers), a division,
    a time signature and a start time, and holds its events in order. *)
Definition new_track (division mpb : Z) (events : list value) : obj :=
  {| attrs := list_to_map
       [ ("name", VStr EmptyString); ("instrument", VStr EmptyString);
         ("tempo", VInt mpb); ("_mpb", VInt mpb);
         ("division", VInt division);
         ("timesig_num", VInt 4); ("timesig_den", VInt 4);
         ("start_time", VFloat 0%Q) ]%string;
     items := Some events |}.

(** Modelled from the spec: a Pattern ([ymidi.containers], not part of
    this module) carries its [divisions] and the cursor [track_index],
    and holds its tracks in order. *)
Definition new_pattern (division cursor : Z) (tracks : list value) : obj :=
  {| attrs := list_to_map
       [ ("divisions", VInt division);
         ("track_index", VInt cursor) ]%string;
     items := Some tracks |}.

(** An object with one more attribute. *)
Definition with_attr (o : obj) (name : string) (x : value) : obj :=
  {| attrs := <[name := x]> (attrs o); items := items o |}.

(** An event with its four timing fields and the fields of its kind. *)
Definition new_event (delta : Z) (delta_time : value) (tick : Z)
    (time : value) (fields : list (string * value)) : obj :=
  {| attrs := list_to_map
       ([ ("delta", VInt delta); ("delta_time", delta_time);
          ("tick", VInt tick); ("time", time) ]%string ++ fields);
     items := None |}.

Definition new_state (objects : list obj) : state :=
  {| heap := list_to_map (imap (λ i o, (i, o)) objects); trace := [] |}.

(** A track at division 480 and 500000 microseconds per beat holding one
    event at tick 200, 100 ms; the event handled carries only an absolute
    time, 300 ms: its delta, delta_time and tick are 0. *)
Definition state_time_only : state :=
  new_state
    [ new_track 480 500000 [VRef 1%nat];
      new_event 200 (VFloat 100%Q) 200 (VFloat 100%Q) [];
      new_event 0 (VInt 0) 0 (VFloat 300%Q) [] ].

(** The same track; the event handled claims tick 50 and 30 ms, both
    earlier than its predecessor, and carries no delta. *)
Definition state_unresolvable : state :=
  new_state
    [ new_track 480 500000 [VRef 1%nat];
      new_event 200 (VFloat 100%Q) 200 (VFloat 100%Q) [];
      new_event 0 (VInt 0) 50 (VFloat 30%Q) [] ].

(** An empty track and an event with tick 100 and nothing else. *)
Definition state_empty_track : state :=
  new_state
    [ new_track 480 500000 [];
      new_event 0 (VInt 0) 100 (VInt 0) [] ].

(** A track at division 480 and 500000 microseconds per beat holding one
    event at tick 0, 0 ms; the event handled has delta 480. *)
Definition state_forward : state :=
  new_state
    [ new_track 480 500000 [VRef 1%nat];
      new_event 0 (VInt 0) 0 (VInt 0) [];
      new_event 480 (VInt 0) 0 (VInt 0) [] ].

(** A track holding three events, and a fourth event not yet in it. *)
Definition state_three_events : state :=
  new_state
    [ new_track 480 500000 [VRef 1%nat; VRef 2%nat; VRef 3%nat];
      new_event 0 (VInt 0) 0 (VInt 0) [];
      new_event 10 (VInt 0) 10 (VInt 0) [];
      new_event 10 (VInt 0) 20 (VInt 0) [];
      new_event 5 (VInt 0) 0 (VInt 0) [] ].

(** A pattern of one track whose cursor has already moved past it, and
    an event arriving. *)
Definition state_exhausted : state :=
  new_state
    [ new_pattern 480 1 [VRef 1%nat];
      new_track 480 500000 [];
      new_event 0 (VInt 0) 0 (VInt 0) [] ].

(** A pattern of two tracks and a tempo change to 400000. *)
Definition state_two_tracks : state :=
  new_state
    [ new_pattern 480 0 [VRef 1%nat; VRef 2%nat];
      new_track 480 500000 [];
      new_track 480 500000 [];
      new_event 0 (VInt 0) 0 (VInt 0) [("tempo", VInt 400000)]%string ].

(** An empty pattern and a stream-start marker declaring division 480
    and three tracks. *)
Definition state_stream_start : state :=
  new_state
    [ new_pattern 48 0 [];
      new_event 0 (VInt 0) 0 (VInt 0)
        [("divisions", VInt 480); ("num_tracks", VInt 3)]%string ].

(** A pattern at division 480 and a track at division 48 arriving. *)
Definition state_new_track : state :=
  new_state
    [ new_pattern 480 0 [];
      new_track 48 500000 [] ].

(** A pattern at division 48 that also carries an attribute [_division],
    48, which [set_division] reads and no handler assigns; a stream-start
    marker declaring division 480; and a track at division 12 arriving. *)
Definition state_private_division : state :=
  new_state
    [ with_attr (new_pattern 48 0 []) "_division" (VInt 48);
      new_event 0 (VInt 0) 0 (VInt 0)
        [("divisions", VInt 480); ("num_tracks", VInt 0)]%string;
      new_track 12 500000 [] ].

(** An empty track, a tempo change to 400000, and an event with delta
    480. *)
Definition state_tempo_change : state :=
  new_state
    [ new_track 480 500000 [];
      new_event 0 (VInt 0) 0 (VInt 0) [("tempo", VInt 400000)]%string;
      new_event 480 (VInt 0) 0 (VInt 0) [] ].

(** A track whose three events have deltas 0, 10, 10 and ticks 0, 10, 20,
    and a fourth event with delta 5 not yet in it (as
    [state_three_events]); here the fourth event carries only the absolute
    tick 50. *)
Definition state_absolute_tick : state :=
  new_state
    [ new_track 480 500000 [VRef 1%nat; VRef 2%nat; VRef 3%nat];
      new_event 0 (VInt 0) 0 (VInt 0) [];
      new_event 10 (VInt 0) 10 (VInt 0) [];
      new_event 10 (VInt 0) 20 (VInt 0) [];
      new_event 0 (VInt 0) 50 (VInt 0) [] ].

(** A pattern of two tracks with the cursor at -1, and an event
    arriving. *)
Definition state_negative_cursor : state :=
  new_state
    [ new_pattern 480 (-1) [VRef 1%nat; VRef 2%nat];
      new_track 480 500000 [];
      new_track 480 500000 [];
      new_event 0 (VInt 0) 0 (VInt 0) [] ].

(** An empty track and a time-signature event that has a denominator but
    no numerator. *)
Definition state_half_signature : state :=
  new_state
    [ new_track 480 500000 [];
      new_event 0 (VInt 0) 0 (VInt 0) [("denominator", VInt 8)]%string ].

(** An empty track, and an event carrying a text, a numerator and a
    denominator. *)
Definition state_metadata : state :=
  new_state
    [ new_track 480 500000 [];
      new_event 0 (VInt 0) 0 (VInt 0)
        [ ("text", VStr "Piano"); ("numerator", VInt 3);
          ("denominator", VInt 8) ]%string ].

(** A track holding one event at tick 200, 100 ms; the event handled has
    no delta but a delta_time of 250 ms, and claims a tick and a time
    earlier than its predecessor's. *)
Definition state_delta_time : state :=
  new_state
    [ new_track 480 500000 [VRef 1%nat];
      new_event 200 (VFloat 100%Q) 200 (VFloat 100%Q) [];
      new_event 0 (VFloat 250%Q) 50 (VFloat 30%Q) [] ].

End Samples.

(** ** Running the monad *)

Section Running.
Context {F : PyFloat} {E : Externals}.

Lemma bind_ok {A B} (m : M A) (k : A → M B) σ a σ' :
  m σ = (Ok a, σ') → (m ≫= k) σ = k a σ'.
Proof. intros H. unfold mbind, M_bind. by rewrite H. Qed.

Lemma bind_raise {A B} (m : M A) (k : A → M B) σ e σ' :
  m σ = (Raise e, σ') → (m ≫= k) σ = (Raise e, σ').
Proof. intros H. unfold mbind, M_bind. by rewrite H. Qed.

Lemma lift_run {A} (r : outcome A) σ : lift r σ = (r, σ).
Proof. done. Qed.

Lemma getattr_ok σ l name x :
  attr_of σ l name = Some x → getattr (VRef l) name σ = (Ok x, σ).
Proof.
  unfold attr_of, getattr, deref. cbn [builtin_attr]. intros H.
  destruct (heap σ !! l) as [o|] eqn:Hl; simplify_eq/=.
  unfold mbind, M_bind. rewrite Hl. by rewrite H.
Qed.

Lemma getattr_missing σ l o name :
  heap σ !! l = Some o → attrs o !! name = None →
  getattr (VRef l) name σ = (Raise (AttributeError name), σ).
Proof.
  intros Hl H. unfold getattr, deref, mbind, M_bind. cbn [builtin_attr].
  rewrite Hl.
  by rewrite H.
Qed.

Lemma setattr_ok σ l name x :
  is_Some (heap σ !! l) →
  setattr (VRef l) name x σ = (Ok tt, assign σ l name x).
Proof.
  intros [o Hl]. unfold setattr, deref, assign, store, mbind, M_bind.
  by rewrite Hl.
Qed.

Lemma attr_of_is_Some σ l name x :
  attr_of σ l name = Some x → is_Some (heap σ !! l).
Proof. unfold attr_of. destruct (heap σ !! l); naive_solver. Qed.

Lemma items_of_is_Some σ l its :
  items_of σ l = Some its → is_Some (heap σ !! l).
Proof. unfold items_of. destruct (heap σ !! l); naive_solver. Qed.

Lemma sequence_of_ok σ c its :
  items_of σ c = Some its → sequence_of (VRef c) σ = (Ok its, σ).
Proof.
  unfold items_of, sequence_of, deref, mbind at 2, M_bind. intros H.
  destruct (heap σ !! c) as [o|]; simplify_eq/=. by rewrite H.
Qed.

Lemma py_len_ok σ c its :
  items_of σ c = Some its →
  py_len (VRef c) σ = (Ok (Z.of_nat (length its)), σ).
Proof.
  intros H. unfold py_len. by erewrite bind_ok by by apply sequence_of_ok.
Qed.

Lemma getitem_ok σ c its i :
  items_of σ c = Some its →
  getitem (VRef c) i σ = (index_list its i, σ).
Proof.
  intros H. unfold getitem. by erewrite bind_ok by by apply sequence_of_ok.
Qed.

Lemma py_contains_ok σ c its x :
  items_of σ c = Some its →
  py_contains (VRef c) x σ = (Ok (existsb (λ item, py_eq item x) its), σ).
Proof.
  intros H. unfold py_contains. by erewrite bind_ok by by apply sequence_of_ok.
Qed.

Lemma load_method_ok σ l name its :
  items_of σ l = Some its → load_method (VRef l) name σ = (Ok l, σ).
Proof.
  unfold items_of, load_method, deref, mbind at 2, M_bind. intros H.
  destruct (heap σ !! l) as [o|]; simplify_eq/=. by rewrite H.
Qed.

(** Indexing inside the bounds reads the list. *)
Lemma index_list_in_range (its : list value) i x :
  0 ≤ i → its !! Z.to_nat i = Some x → index_list its i = Ok x.
Proof.
  intros Hi Hx. unfold index_list.
  apply lookup_lt_Some in Hx as Hlt.
  destruct (i <? 0) eqn:Hneg; [lia|].
  replace ((0 <=? i) && (i <? Z.of_nat (length its))) with true
    by (symmetry; apply andb_true_iff; split; lia).
  by rewrite Hx.
Qed.

(** Indexing at or past the length raises [IndexError]. *)
Lemma index_list_past_end (its : list value) i :
  Z.of_nat (length its) ≤ i → index_list its i = Raise IndexError.
Proof.
  intros Hi. unfold index_list.
  destruct (i <? 0) eqn:Hneg; [lia|].
  replace (i <? Z.of_nat (length its)) with false by (symmetry; lia).
  by rewrite andb_false_r.
Qed.

(** Equality with an object is identity. *)
Lemma py_eq_ref item e : py_eq item (VRef e) = true ↔ item = VRef e.
Proof.
  destruct item as [| | | | |l|]; unfold py_eq; simpl;
    try (split; [discriminate|congruence]).
  rewrite Nat.eqb_eq. split; congruence.
Qed.

Lemma contains_ref (its : list value) e :
  existsb (λ item, py_eq item (VRef e)) its = true ↔ VRef e ∈ its.
Proof.
  rewrite existsb_exists, list_elem_of_In. split.
  - intros (x & Hin & Heq). apply py_eq_ref in Heq. by subst.
  - intros Hin. exists (VRef e). split; [done|]. by apply py_eq_ref.
Qed.

(** *** Assignments *)

Lemma attr_of_assign_eq σ l name x :
  is_Some (heap σ !! l) → attr_of (assign σ l name x) l name = Some x.
Proof.
  intros [o Hl]. unfold attr_of, assign. rewrite Hl. simpl.
  rewrite lookup_insert_eq. simpl. by rewrite lookup_insert_eq.
Qed.

Lemma attr_of_assign_ne σ l name x l' name' :
  name ≠ name' →
  attr_of (assign σ l name x) l' name' = attr_of σ l' name'.
Proof.
  intros Hne. unfold attr_of, assign.
  destruct (heap σ !! l) as [o|] eqn:Hl; [|done]. simpl.
  destruct (decide (l = l')) as [<-|Hll].
  - rewrite lookup_insert_eq, Hl. simpl. by rewrite lookup_insert_ne.
  - by rewrite lookup_insert_ne.
Qed.

Lemma attr_of_assign_other σ l name x l' name' :
  l ≠ l' → attr_of (assign σ l name x) l' name' = attr_of σ l' name'.
Proof.
  intros Hne. unfold attr_of, assign.
  destruct (heap σ !! l) as [o|] eqn:Hl; [|done]. simpl.
  by rewrite lookup_insert_ne.
Qed.

Lemma items_of_assign σ l name x l' :
  items_of (assign σ l name x) l' = items_of σ l'.
Proof.
  unfold items_of, assign.
  destruct (heap σ !! l) as [o|] eqn:Hl; [|done]. simpl.
  destruct (decide (l = l')) as [<-|Hll].
  - by rewrite lookup_insert_eq, Hl.
  - by rewrite lookup_insert_ne.
Qed.

Lemma trace_assign σ l name x : trace (assign σ l name x) = trace σ.
Proof. unfold assign. by destruct (heap σ !! l). Qed.

Lemma heap_assign_is_Some σ l name x l' :
  is_Some (heap σ !! l') → is_Some (heap (assign σ l name x) !! l').
Proof.
  intros Hl'. unfold assign.
  destruct (heap σ !! l) as [o|] eqn:Hl; [|done]. simpl.
  destruct (decide (l = l')) as [<-|Hll].
  - rewrite lookup_insert_eq. by eexists.
  - by rewrite lookup_insert_ne.
Qed.

(** An attribute assignment that cannot be made leaves the state as it
    is; so does a read. *)
Lemma setattr_state v name x σ :
  (setattr v name x σ).2
  = match v with VRef l => assign σ l name x | _ => σ end.
Proof.
  unfold setattr, deref, assign, store, mbind, M_bind.
  destruct v; try done. by destruct (heap σ !! l).
Qed.

Lemma getattr_state v name σ : (getattr v name σ).2 = σ.
Proof.
  unfold getattr. destruct (builtin_attr v name); [done|].
  unfold deref, mbind, M_bind.
  destruct v; try done. destruct (heap σ !! l) as [o|]; [|done].
  by destruct (attrs o !! name).
Qed.
End Running.

(** ** Forward derivation: [event_tick], [event_time], [event_delta_time] *)

Section Forward.
Context {F : PyFloat} {E : Externals}.

(** The offset the handlers compute is the field of the event at index
    [i - 1], or 0 at index 0. *)
Lemma offset_ok σ c i its field v :
  items_of σ c = Some its →
  0 ≤ i ≤ Z.of_nat (length its) →
  previous σ c i field = Some v →
  (if 0 <? i
   then prev ← getitem (VRef c) (i - 1); getattr prev field
   else mret (VInt 0)) σ = (Ok v, σ).
Proof.
  intros Hits Hi Hprev. unfold previous in Hprev.
  destruct (i =? 0) eqn:Hi0.
  - apply Z.eqb_eq in Hi0 as ->. simpl. by simplify_eq.
  - apply Z.eqb_neq in Hi0.
    replace (0 <? i) with true by (symmetry; lia).
    rewrite Hits in Hprev. simpl in Hprev.
    destruct (its !! Z.to_nat (i - 1)) as [p|] eqn:Hp; [|done].
    simpl in Hprev. destruct p as [| | | | |l|]; try done.
    erewrite bind_ok; [by apply getattr_ok|].
    rewrite (getitem_ok _ _ its) by done.
    f_equal. apply index_list_in_range; [lia|done].
Qed.

Lemma event_tick_ok σ c e i its delta tick0 tick :
  items_of σ c = Some its →
  0 ≤ i ≤ Z.of_nat (length its) →
  previous σ c i "tick" = Some tick0 →
  attr_of σ e "delta" = Some delta →
  py_add tick0 delta = Ok tick →
  event_tick (VRef c) (VRef e) i σ = (Ok VNone, assign σ e "tick" tick).
Proof.
  intros Hits Hi Hprev Hdelta Hadd. unfold event_tick.
  erewrite bind_ok by by eapply offset_ok.
  erewrite bind_ok by by apply getattr_ok.
  erewrite bind_ok by by rewrite lift_run, Hadd.
  erewrite bind_ok; [done|].
  apply setattr_ok. by eapply attr_of_is_Some.
Qed.

Lemma event_time_ok σ c e i its delta division mpb time0 ms time :
  items_of σ c = Some its →
  0 ≤ i ≤ Z.of_nat (length its) →
  previous σ c i "time" = Some time0 →
  attr_of σ e "delta" = Some delta →
  attr_of σ c "division" = Some division →
  attr_of σ c "_mpb" = Some mpb →
  de_to_ms delta division mpb = Ok ms →
  py_add time0 ms = Ok time →
  event_time (VRef c) (VRef e) i σ = (Ok VNone, assign σ e "time" time).
Proof.
  intros Hits Hi Hprev Hdelta Hdiv Hmpb Hms Hadd. unfold event_time.
  erewrite bind_ok by by eapply offset_ok.
  do 3 erewrite bind_ok by by apply getattr_ok.
  erewrite bind_ok by by rewrite lift_run, Hms.
  erewrite bind_ok by by rewrite lift_run, Hadd.
  erewrite bind_ok; [done|].
  apply setattr_ok. by eapply attr_of_is_Some.
Qed.

Lemma event_delta_time_ok σ c e i delta division mpb ms :
  attr_of σ e "delta" = Some delta →
  attr_of σ c "division" = Some division →
  attr_of σ c "_mpb" = Some mpb →
  de_to_ms delta division mpb = Ok ms →
  event_delta_time (VRef c) (VRef e) i σ
  = (Ok VNone, assign σ e "delta_time" ms).
Proof.
  intros Hdelta Hdiv Hmpb Hms. unfold event_delta_time.
  do 3 erewrite bind_ok by by apply getattr_ok.
  erewrite bind_ok by by rewrite lift_run, Hms.
  erewrite bind_ok; [done|].
  apply setattr_ok. by eapply attr_of_is_Some.
Qed.

Lemma previous_assign_ne σ l name x c i field :
  name ≠ field →
  previous (assign σ l name x) c i field = previous σ c i field.
Proof.
  intros Hne. unfold previous. destruct (i =? 0); [done|].
  rewrite items_of_assign. destruct (items_of σ c) as [its|]; [|done].
  simpl. destruct (its !! Z.to_nat (i - 1)) as [[| | | | |p|]|]; try done.
  simpl. by apply attr_of_assign_ne.
Qed.

(** Run one after the other, in the order of the track's chain, the
    three handlers fill in the three fields: none of them stops the
    chain, and none reads a field an earlier one has assigned. *)
Lemma forward_chain_ok σ c e i its delta division mpb
    tick0 time0 ms tick time :
  items_of σ c = Some its →
  0 ≤ i ≤ Z.of_nat (length its) →
  previous σ c i "tick" = Some tick0 →
  previous σ c i "time" = Some time0 →
  attr_of σ e "delta" = Some delta →
  attr_of σ c "division" = Some division →
  attr_of σ c "_mpb" = Some mpb →
  de_to_ms delta division mpb = Ok ms →
  py_add tick0 delta = Ok tick →
  py_add time0 ms = Ok time →
  run_chain [event_tick; event_time; event_delta_time] (VRef c) (VRef e) i σ
  = (Ok false,
     assign (assign (assign σ e "tick" tick) e "time" time)
       e "delta_time" ms).
Proof.
  intros Hits Hi Htick Htime Hdelta Hdiv Hmpb Hms Hadd1 Hadd2.
  unfold run_chain.
  erewrite bind_ok by by eapply event_tick_ok.
  erewrite bind_ok by done. simpl.
  erewrite bind_ok.
  2:{ eapply event_time_ok; try done.
      - by rewrite items_of_assign.
      - by rewrite previous_assign_ne.
      - by rewrite attr_of_assign_ne.
      - by rewrite attr_of_assign_ne.
      - by rewrite attr_of_assign_ne. }
  erewrite bind_ok by done. simpl.
  erewrite bind_ok.
  2:{ eapply event_delta_time_ok; try done;
        by rewrite !attr_of_assign_ne. }
  by erewrite bind_ok by done.
Qed.

(** C3. For an insertion of the event [e] at a valid index [i] of the
    track [c], [event_tick] sets [e.tick] to the tick of the event at
    index [i - 1] (0 when [i = 0]) plus [e.delta]; [event_time] sets
    [e.time] to the time of the event at index [i - 1] (0 when [i = 0])
    plus [de_to_ms(e.delta, division, _mpb)]; and [event_delta_time] sets
    [e.delta_time] to [de_to_ms(e.delta, division, _mpb)].  Each handler
    returns [None] and changes nothing else. *)
Theorem forward_derivation σ c e i its delta division mpb
    tick0 time0 ms tick time :
  items_of σ c = Some its →
  0 ≤ i ≤ Z.of_nat (length its) →
  previous σ c i "tick" = Some tick0 →
  previous σ c i "time" = Some time0 →
  attr_of σ e "delta" = Some delta →
  attr_of σ c "division" = Some division →
  attr_of σ c "_mpb" = Some mpb →
  de_to_ms delta division mpb = Ok ms →
  py_add tick0 delta = Ok tick →
  py_add time0 ms = Ok time →
  event_tick (VRef c) (VRef e) i σ = (Ok VNone, assign σ e "tick" tick) ∧
  event_time (VRef c) (VRef e) i σ = (Ok VNone, assign σ e "time" time) ∧
  event_delta_time (VRef c) (VRef e) i σ
  = (Ok VNone, assign σ e "delta_time" ms).
Proof.
  intros. split_and!.
  - by eapply event_tick_ok.
  - by eapply event_time_ok.
  - by eapply event_delta_time_ok.
Qed.
End Forward.

(** ** The rehandle check *)

Section Rehandle.
Context {F : PyFloat} {E : Externals}.

(** The state after a method call: the store as the method leaves it, and
    the call added to the trace. *)
Lemma call_method_state l name args σ :
  (call_method l name args σ).2
  = {| heap := (invoke_method l name args (heap σ)).2;
       trace := trace σ ++ [MethodCall l name args] |}.
Proof.
  unfold call_method. by destruct (invoke_method l name args (heap σ)).
Qed.

(** A call whose result is discarded. *)
Lemma call_then_none_state l name args σ :
  ((call_method l name args ≫= λ _, mret VNone) σ).2
  = (call_method l name args σ).2.
Proof.
  unfold mbind, M_bind.
  by destruct (call_method l name args σ) as [[v|x] σ'].
Qed.

Lemma rehandle_invokes σ c e i its :
  items_of σ c = Some its →
  i < Z.of_nat (length its) → VRef e ∉ its →
  rehandle (VRef c) (VRef e) i σ
  = (call_method c "rehandle" [] ≫= λ _, mret VNone) σ.
Proof.
  intros Hits Hi Hnotin. unfold rehandle.
  erewrite bind_ok by by apply py_len_ok.
  replace (i <? Z.of_nat (length its)) with true by (symmetry; lia).
  erewrite bind_ok by by apply py_contains_ok.
  replace (existsb (λ item, py_eq item (VRef e)) its) with false.
  2:{ symmetry. apply not_true_is_false. by rewrite contains_ref. }
  simpl. erewrite bind_ok; [done|].
  by eapply load_method_ok.
Qed.

Lemma rehandle_skips σ c e i its :
  items_of σ c = Some its →
  ¬ (i < Z.of_nat (length its) ∧ VRef e ∉ its) →
  rehandle (VRef c) (VRef e) i σ = (Ok VNone, σ).
Proof.
  intros Hits Hcond. unfold rehandle.
  erewrite bind_ok by by apply py_len_ok.
  destruct (i <? Z.of_nat (length its)) eqn:Hi; [|done].
  erewrite bind_ok by by apply py_contains_ok.
  destruct (existsb (λ item, py_eq item (VRef e)) its) eqn:Hin; [done|].
  exfalso. apply Hcond. split; [lia|].
  rewrite <- contains_ref. by rewrite Hin.
Qed.

(** C4. The [rehandle] handler calls the container's [rehandle()] method
    if and only if the insertion index is strictly less than the
    container's length and the inserted event is not already held by the
    container; otherwise it returns [None] and leaves the state, and so
    the container, unchanged. *)
Theorem rehandle_iff_mid_sequence_insertion σ c e i its :
  items_of σ c = Some its →
  let σ' := (rehandle (VRef c) (VRef e) i σ).2 in
  (trace σ' = trace σ ++ [MethodCall c "rehandle" []]
   ↔ i < Z.of_nat (length its) ∧ VRef e ∉ its) ∧
  (i < Z.of_nat (length its) ∧ VRef e ∉ its →
   heap σ' = (invoke_method c "rehandle" [] (heap σ)).2) ∧
  (¬ (i < Z.of_nat (length its) ∧ VRef e ∉ its) →
   rehandle (VRef c) (VRef e) i σ = (Ok VNone, σ)).
Proof.
  intros Hits σ'. subst σ'.
  assert ((i < Z.of_nat (length its) ∧ VRef e ∉ its)
          ∨ ¬ (i < Z.of_nat (length its) ∧ VRef e ∉ its))
    as [Hcond|Hcond].
  { destruct (existsb (λ item, py_eq item (VRef e)) its) eqn:Hin.
    - right. intros [_ Hnotin]. apply Hnotin. by apply contains_ref.
    - destruct (decide (i < Z.of_nat (length its))); [left|right; tauto].
      split; [done|]. rewrite <- contains_ref. by rewrite Hin. }
  - destruct Hcond as [Hi Hnotin].
    rewrite (rehandle_invokes σ c e i its) by done.
    rewrite call_then_none_state, call_method_state. simpl.
    split_and!; [done|done|]. intros []. done.
  - rewrite (rehandle_skips σ c e i its) by done. simpl.
    split_and!; [|done|done].
    split; [|done]. intros Htrace. exfalso.
    apply (f_equal length) in Htrace. rewrite length_app in Htrace.
    simpl in Htrace. lia.
Qed.
End Rehandle.

(** ** Pattern handlers *)

Section Pattern.
Context {F : PyFloat} {E : Externals}.

Lemma truthy_true σ : truthy (VBool true) σ = (Ok true, σ).
Proof. done. Qed.

Lemma set_division_ok σ p t i d :
  attr_of σ p "_division" = Some d →
  is_Some (heap σ !! t) →
  set_division (VRef p) (VRef t) i σ
  = (Ok (VBool true), assign σ t "division" d).
Proof.
  intros Hd Ht. unfold set_division.
  erewrite bind_ok by by apply getattr_ok.
  erewrite bind_ok; [done|]. by apply setattr_ok.
Qed.

(** X16. For a Track [t] inserted into the Pattern [p], [set_division]
    sets [t.division] to the value of the Pattern's attribute [_division]
    (not of [divisions], which [start_pattern] assigns) and returns
    [True]; a chain that reaches [set_division] stops there, whatever
    handlers follow it. *)
Theorem set_division_syncs_and_stops σ p t i d events :
  attr_of σ p "_division" = Some d →
  items_of σ t = Some events →
  set_division (VRef p) (VRef t) i σ
  = (Ok (VBool true), assign σ t "division" d) ∧
  attr_of (assign σ t "division" d) t "division" = Some d ∧
  ∀ rest,
    run_chain (set_division :: rest) (VRef p) (VRef t) i σ
    = (Ok true, assign σ t "division" d).
Proof.
  intros Hd Ht. apply items_of_is_Some in Ht. split_and!.
  - by apply set_division_ok.
  - by apply attr_of_assign_eq.
  - intros rest. simpl.
    erewrite bind_ok by by apply set_division_ok.
    by erewrite bind_ok by apply truthy_true.
Qed.

(** [for track in Pattern:] cannot even start: the name [Pattern] is not
    bound when the module runs. *)
Lemma global_tempo_raises (c e : value) (i : Z) σ :
  global_tempo c e i σ = (Raise (NameError "Pattern"), σ).
Proof. reflexivity. Qed.

Lemma start_pattern_ok σ p e i d :
  attr_of σ e "divisions" = Some d →
  is_Some (heap σ !! p) →
  start_pattern (VRef p) (VRef e) i σ
  = (Ok VNone, assign σ p "divisions" d).
Proof.
  intros Hd Hp. unfold start_pattern.
  erewrite bind_ok by by apply getattr_ok.
  erewrite bind_ok; [done|]. by apply setattr_ok.
Qed.

(** As soon as one track is to be created, [Track()] raises: the name
    [Track] is not bound when the module runs.  Nothing is appended. *)
Lemma create_tracks_raises σ p e i n tracks :
  attr_of σ e "num_tracks" = Some (VInt n) →
  0 < n →
  items_of σ p = Some tracks →
  create_tracks (VRef p) (VRef e) i σ = (Raise (NameError "Track"), σ).
Proof.
  intros Hn Hpos Hp. unfold create_tracks.
  erewrite bind_ok by by apply getattr_ok.
  erewrite bind_ok by (unfold py_range; by erewrite bind_ok by done).
  erewrite bind_raise; [done|].
  destruct (Z.to_nat n) as [|m] eqn:Hm; [lia|]. simpl.
  erewrite bind_raise; [done|].
  erewrite bind_ok by by eapply load_method_ok.
  by erewrite bind_raise.
Qed.

(** With no track to create, nothing happens. *)
Lemma create_tracks_nothing_to_create σ p e i n :
  attr_of σ e "num_tracks" = Some (VInt n) →
  n ≤ 0 →
  create_tracks p (VRef e) i σ = (Ok VNone, σ).
Proof.
  intros Hn Hpos. unfold create_tracks.
  erewrite bind_ok by by apply getattr_ok.
  erewrite bind_ok by (unfold py_range; by erewrite bind_ok by done).
  replace (Z.to_nat n) with 0%nat by lia. done.
Qed.

Lemma stop_track_ok σ p ev i k :
  attr_of σ p "track_index" = Some (VInt k) →
  stop_track (VRef p) ev i σ
  = (Ok VNone, assign σ p "track_index" (VInt (k + 1))).
Proof.
  intros Hk. unfold stop_track.
  erewrite bind_ok by by apply getattr_ok.
  erewrite bind_ok by done.
  erewrite bind_ok; [done|].
  apply setattr_ok. by eapply attr_of_is_Some.
Qed.

(** With the cursor at or past the last track, an ordinary event cannot
    be sorted: indexing the pattern raises [IndexError]. *)
Lemma sort_events_cursor_past_end σ p ev i k its :
  attr_of σ p "track_index" = Some (VInt k) →
  items_of σ p = Some its →
  Z.of_nat (length its) ≤ k →
  sort_events (VRef p) ev i σ = (Raise IndexError, σ).
Proof.
  intros Hk Hits Hlen. unfold sort_events.
  erewrite bind_ok by by apply getattr_ok.
  erewrite bind_ok by done.
  erewrite bind_raise; [done|].
  rewrite (getitem_ok _ _ its) by done.
  by rewrite index_list_past_end.
Qed.

Lemma pattern_inv_assign_ne σ l name x p :
  name ≠ "track_index" →
  pattern_inv σ p → pattern_inv (assign σ l name x) p.
Proof.
  intros Hne (k & its & Hk & Hits & Hrange). exists k, its.
  by rewrite attr_of_assign_ne, items_of_assign.
Qed.

(** A handler that reads one attribute and assigns one attribute leaves
    behind either the state it found or that state after the
    assignment. *)
Lemma copy_attribute_state (src dst : value) a b (r : value) σ :
  let m : M value := (d ← getattr src a; setattr dst b d;; mret r) in
  (m σ).2 = σ ∨ ∃ l d, dst = VRef l ∧ (m σ).2 = assign σ l b d.
Proof.
  intros m. subst m. unfold mbind, M_bind.
  pose proof (getattr_state src a σ) as Hget.
  destruct (getattr src a σ) as [[d|x] σ1]; simpl in Hget; subst σ1;
    [|by left].
  pose proof (setattr_state dst b d σ) as Hset.
  destruct (setattr dst b d σ) as [[[]|x] σ2]; simpl in Hset; subst σ2;
    simpl; (destruct dst as [| | | | |l|]; try (by left));
    right; by exists l, d.
Qed.

(** C6, as the code has it.  [stop_track] always moves the cursor by
    one: it returns [None], raises nothing and leaves the tracks as they
    are, so from a state satisfying [0 <= track_index <= length(tracks)]
    it preserves the invariant exactly when [track_index <
    length(tracks)] held.  [start_pattern] and [set_division] preserve
    the invariant. *)
Theorem cursor_invariant σ p ev i k its :
  attr_of σ p "track_index" = Some (VInt k) →
  items_of σ p = Some its →
  0 ≤ k ≤ Z.of_nat (length its) →
  let σ' := assign σ p "track_index" (VInt (k + 1)) in
  stop_track (VRef p) ev i σ = (Ok VNone, σ') ∧
  attr_of σ' p "track_index" = Some (VInt (k + 1)) ∧
  items_of σ' p = Some its ∧
  (pattern_inv σ' p ↔ k < Z.of_nat (length its)) ∧
  pattern_inv (start_pattern (VRef p) ev i σ).2 p ∧
  pattern_inv (set_division (VRef p) ev i σ).2 p.
Proof.
  intros Hk Hits Hrange σ'. subst σ'.
  assert (is_Some (heap σ !! p)) as Hp by by eapply attr_of_is_Some.
  assert (pattern_inv σ p) as Hinv by by exists k, its.
  split_and!.
  - by apply stop_track_ok.
  - by apply attr_of_assign_eq.
  - by rewrite items_of_assign.
  - split.
    + intros (k' & its' & Hk' & Hits' & Hrange').
      rewrite attr_of_assign_eq in Hk' by done.
      rewrite items_of_assign in Hits'. simplify_eq. lia.
    + intros Hlt. exists (k + 1), its.
      rewrite attr_of_assign_eq by done. rewrite items_of_assign.
      split_and!; [done|done|lia|lia].
  - destruct (copy_attribute_state ev (VRef p) "divisions" "divisions"
                VNone σ) as [Heq|(l & d & _ & Heq)];
      unfold start_pattern; rewrite Heq; [done|].
    by apply pattern_inv_assign_ne.
  - destruct (copy_attribute_state (VRef p) ev "_division" "division"
                (VBool true) σ) as [Heq|(l & d & _ & Heq)];
      unfold set_division; rewrite Heq; [done|].
    by apply pattern_inv_assign_ne.
Qed.
End Pattern.

(** ** Metadata handlers *)

Section Metadata.
Context {F : PyFloat} {E : Externals}.

Lemma track_name_ok σ t e i text :
  attr_of σ e "text" = Some text →
  is_Some (heap σ !! t) →
  track_name (VRef t) (VRef e) i σ = (Ok VNone, assign σ t "name" text).
Proof.
  intros He Ht. unfold track_name.
  erewrite bind_ok by by apply getattr_ok.
  erewrite bind_ok; [done|]. by apply setattr_ok.
Qed.

Lemma instrument_name_ok σ t e i text :
  attr_of σ e "text" = Some text →
  is_Some (heap σ !! t) →
  instrument_name (VRef t) (VRef e) i σ
  = (Ok VNone, assign σ t "instrument" text).
Proof.
  intros He Ht. unfold instrument_name.
  erewrite bind_ok by by apply getattr_ok.
  erewrite bind_ok; [done|]. by apply setattr_ok.
Qed.

Lemma time_signature_ok σ t e i num den :
  attr_of σ e "numerator" = Some num →
  attr_of σ e "denominator" = Some den →
  is_Some (heap σ !! t) →
  time_signature (VRef t) (VRef e) i σ
  = (Ok VNone,
     assign (assign σ t "timesig_den" den) t "timesig_num" num).
Proof.
  intros Hnum Hden Ht. unfold time_signature.
  erewrite bind_ok by by apply getattr_ok.
  erewrite bind_ok by by apply setattr_ok.
  erewrite bind_ok
    by (apply getattr_ok; by rewrite attr_of_assign_ne).
  erewrite bind_ok; [done|].
  apply setattr_ok. by apply heap_assign_is_Some.
Qed.

(** [set_tempo] stores the tempo under the attribute [msb]. *)
Lemma set_tempo_ok σ t e i tempo :
  attr_of σ e "tempo" = Some tempo →
  is_Some (heap σ !! t) →
  set_tempo (VRef t) (VRef e) i σ = (Ok VNone, assign σ t "msb" tempo).
Proof.
  intros He Ht. unfold set_tempo.
  erewrite bind_ok by by apply getattr_ok.
  erewrite bind_ok; [done|]. by apply setattr_ok.
Qed.

(** What [event_time] and [event_delta_time] read, [_mpb], is not what
    [set_tempo] assigns. *)
Lemma set_tempo_keeps_mpb σ t e i tempo l :
  attr_of σ e "tempo" = Some tempo →
  is_Some (heap σ !! t) →
  attr_of (set_tempo (VRef t) (VRef e) i σ).2 l "_mpb" = attr_of σ l "_mpb".
Proof.
  intros He Ht. rewrite (set_tempo_ok σ t e i tempo) by done.
  by apply attr_of_assign_ne.
Qed.
End Metadata.

(** ** Reverse derivation: [determine_delta] *)

Section Reverse.
Context {F : PyFloat} {E : Externals}.

Lemma index_list_last (its : list value) x :
  last its = Some x → index_list its (-1) = Ok x.
Proof.
  intros Hlast. unfold index_list.
  assert (length its ≠ 0%nat) as Hlen by (by destruct its).
  replace (-1 <? 0) with true by done.
  replace ((0 <=? -1 + Z.of_nat (length its))
           && (-1 + Z.of_nat (length its) <? Z.of_nat (length its)))
    with true by (symmetry; apply andb_true_iff; split; lia).
  rewrite last_lookup in Hlast.
  replace (Z.to_nat (-1 + Z.of_nat (length its))) with (pred (length its))
    by lia.
  by rewrite Hlast.
Qed.

Lemma last_position_items σ c pos :
  last_position σ c = Some pos → ∃ its, items_of σ c = Some its.
Proof.
  unfold last_position. destruct (items_of σ c) as [its|]; [|done].
  by exists its.
Qed.

Lemma last_position_ok σ c its tb mb :
  items_of σ c = Some its →
  last_position σ c = Some (tb, mb) →
  (if 0 <? Z.of_nat (length its)
   then last1 ← getitem (VRef c) (-1);
        tb ← getattr last1 "tick";
        last2 ← getitem (VRef c) (-1);
        mb ← getattr last2 "time";
        mret (tb, mb)
   else mret (VInt 0, VInt 0)) σ = (Ok (tb, mb), σ).
Proof.
  unfold last_position. intros Hits H. rewrite Hits in H. simpl in H.
  destruct (last its) as [x|] eqn:Hlast.
  - assert (length its ≠ 0%nat) as Hlen by (by destruct its).
    replace (0 <? Z.of_nat (length its)) with true by (symmetry; lia).
    destruct x as [| | | | |l|]; try done.
    destruct (attr_of σ l "tick") as [tick|] eqn:Htick; [|done].
    destruct (attr_of σ l "time") as [time|] eqn:Htime; [|done].
    simplify_eq/=.
    erewrite bind_ok
      by (rewrite (getitem_ok _ _ its) by done;
          by rewrite (index_list_last its (VRef l))).
    erewrite bind_ok by by apply getattr_ok.
    erewrite bind_ok
      by (rewrite (getitem_ok _ _ its) by done;
          by rewrite (index_list_last its (VRef l))).
    by erewrite bind_ok by by apply getattr_ok.
  - apply last_None in Hlast as ->. by simplify_eq/=.
Qed.

(** Rule 1: a nonzero delta is kept and nothing is computed. *)
Lemma determine_delta_resolved σ c e i delta :
  attr_of σ e "delta" = Some delta →
  py_ne delta (VInt 0) = true →
  determine_delta c (VRef e) i σ = (Ok VNone, σ).
Proof.
  intros Hd Hne. unfold determine_delta.
  erewrite bind_ok by by apply getattr_ok. by rewrite Hne.
Qed.

(** Rule 2: a nonzero [delta_time] is converted with the container's
    division and tempo. *)
Lemma determine_delta_from_delta_time σ c e i
    delta delta_time division tempo d :
  attr_of σ e "delta" = Some delta →
  py_ne delta (VInt 0) = false →
  attr_of σ e "delta_time" = Some delta_time →
  py_ne delta_time (VInt 0) = true →
  attr_of σ c "division" = Some division →
  attr_of σ c "tempo" = Some tempo →
  ms_to_de delta_time division tempo = Ok d →
  determine_delta (VRef c) (VRef e) i σ
  = (Ok VNone, assign σ e "delta" d).
Proof.
  intros Hd Hd0 Hdt Hdt0 Hdiv Htempo Hms. unfold determine_delta.
  erewrite bind_ok by by apply getattr_ok. rewrite Hd0.
  erewrite bind_ok by by apply getattr_ok. rewrite Hdt0.
  do 3 erewrite bind_ok by by apply getattr_ok.
  erewrite bind_ok by by rewrite lift_run, Hms.
  erewrite bind_ok; [done|].
  apply setattr_ok. by eapply attr_of_is_Some.
Qed.

(** Rule 3a: an absolute tick not before the last event's. *)
Lemma determine_delta_from_tick σ c e i
    delta delta_time tb mb tick d :
  attr_of σ e "delta" = Some delta →
  py_ne delta (VInt 0) = false →
  attr_of σ e "delta_time" = Some delta_time →
  py_ne delta_time (VInt 0) = false →
  last_position σ c = Some (tb, mb) →
  attr_of σ e "tick" = Some tick →
  py_le tb tick = Ok true →
  py_sub tick tb = Ok d →
  determine_delta (VRef c) (VRef e) i σ
  = (Ok VNone, assign σ e "delta" d).
Proof.
  intros Hd Hd0 Hdt Hdt0 Hlast Htick Hle Hsub. unfold determine_delta.
  erewrite bind_ok by by apply getattr_ok. rewrite Hd0.
  erewrite bind_ok by by apply getattr_ok. rewrite Hdt0.
  destruct (last_position_items _ _ _ Hlast) as [its Hits].
  erewrite bind_ok by by apply py_len_ok.
  erewrite bind_ok by by apply last_position_ok. simpl.
  erewrite bind_ok by by apply getattr_ok.
  erewrite bind_ok by by rewrite lift_run, Hle. simpl.
  erewrite bind_ok by by apply getattr_ok.
  erewrite bind_ok by by rewrite lift_run, Hsub.
  erewrite bind_ok; [done|].
  apply setattr_ok. by eapply attr_of_is_Some.
Qed.

(** Rule 3b, on a container without an attribute [track]: the elapsed
    time is computed, and the conversion is never reached. *)
Lemma determine_delta_from_time_raises σ c e i
    delta delta_time tb mb tick time elapsed :
  attr_of σ e "delta" = Some delta →
  py_ne delta (VInt 0) = false →
  attr_of σ e "delta_time" = Some delta_time →
  py_ne delta_time (VInt 0) = false →
  last_position σ c = Some (tb, mb) →
  attr_of σ e "tick" = Some tick →
  py_le tb tick = Ok false →
  attr_of σ e "time" = Some time →
  py_le mb time = Ok true →
  py_sub time mb = Ok elapsed →
  attr_of σ c "track" = None →
  determine_delta (VRef c) (VRef e) i σ
  = (Raise (AttributeError "track"), σ).
Proof.
  intros Hd Hd0 Hdt Hdt0 Hlast Htick Hle Htime Hle' Hsub Htrack.
  destruct (last_position_items _ _ _ Hlast) as [its' Hits'].
  destruct (items_of_is_Some _ _ _ Hits') as [o Hc]. clear its' Hits'.
  unfold determine_delta.
  erewrite bind_ok by by apply getattr_ok. rewrite Hd0.
  erewrite bind_ok by by apply getattr_ok. rewrite Hdt0.
  destruct (last_position_items _ _ _ Hlast) as [its Hits].
  erewrite bind_ok by by apply py_len_ok.
  erewrite bind_ok by by apply last_position_ok. simpl.
  erewrite bind_ok by by apply getattr_ok.
  erewrite bind_ok by by rewrite lift_run, Hle. simpl.
  erewrite bind_ok by by apply getattr_ok.
  erewrite bind_ok by by rewrite lift_run, Hle'. simpl.
  erewrite bind_ok by by apply getattr_ok.
  erewrite bind_ok by by rewrite lift_run, Hsub.
  erewrite bind_raise; [done|].
  eapply getattr_missing; [done|].
  unfold attr_of in Htrack. by rewrite Hc in Htrack.
Qed.

(** Rule 3b, on a container that has an attribute [track]: its value,
    not the division, is what the conversion receives. *)
Lemma determine_delta_from_time_uses_track σ c e i
    delta delta_time tb mb tick time elapsed track tempo d :
  attr_of σ e "delta" = Some delta →
  py_ne delta (VInt 0) = false →
  attr_of σ e "delta_time" = Some delta_time →
  py_ne delta_time (VInt 0) = false →
  last_position σ c = Some (tb, mb) →
  attr_of σ e "tick" = Some tick →
  py_le tb tick = Ok false →
  attr_of σ e "time" = Some time →
  py_le mb time = Ok true →
  py_sub time mb = Ok elapsed →
  attr_of σ c "track" = Some track →
  attr_of σ c "tempo" = Some tempo →
  ms_to_de elapsed track tempo = Ok d →
  determine_delta (VRef c) (VRef e) i σ
  = (Ok VNone, assign σ e "delta" d).
Proof.
  intros Hd Hd0 Hdt Hdt0 Hlast Htick Hle Htime Hle' Hsub Htrack Htempo Hms.
  unfold determine_delta.
  erewrite bind_ok by by apply getattr_ok. rewrite Hd0.
  erewrite bind_ok by by apply getattr_ok. rewrite Hdt0.
  destruct (last_position_items _ _ _ Hlast) as [its Hits].
  erewrite bind_ok by by apply py_len_ok.
  erewrite bind_ok by by apply last_position_ok. simpl.
  erewrite bind_ok by by apply getattr_ok.
  erewrite bind_ok by by rewrite lift_run, Hle. simpl.
  erewrite bind_ok by by apply getattr_ok.
  erewrite bind_ok by by rewrite lift_run, Hle'. simpl.
  erewrite bind_ok by by apply getattr_ok.
  erewrite bind_ok by by rewrite lift_run, Hsub.
  do 2 erewrite bind_ok by by apply getattr_ok.
  erewrite bind_ok by by rewrite lift_run, Hms.
  erewrite bind_ok; [done|].
  apply setattr_ok. by eapply attr_of_is_Some.
Qed.

(** Rules 3c and 3d: when neither the tick nor the time is at or after
    the last event's, the handler returns [None] and changes nothing,
    whether or not the event's tick and time are both 0. *)
Lemma determine_delta_falls_through σ c e i
    delta delta_time tb mb tick time :
  attr_of σ e "delta" = Some delta →
  py_ne delta (VInt 0) = false →
  attr_of σ e "delta_time" = Some delta_time →
  py_ne delta_time (VInt 0) = false →
  last_position σ c = Some (tb, mb) →
  attr_of σ e "tick" = Some tick →
  py_le tb tick = Ok false →
  attr_of σ e "time" = Some time →
  py_le mb time = Ok false →
  determine_delta (VRef c) (VRef e) i σ = (Ok VNone, σ).
Proof.
  intros Hd Hd0 Hdt Hdt0 Hlast Htick Hle Htime Hle'.
  unfold determine_delta.
  erewrite bind_ok by by apply getattr_ok. rewrite Hd0.
  erewrite bind_ok by by apply getattr_ok. rewrite Hdt0.
  destruct (last_position_items _ _ _ Hlast) as [its Hits].
  erewrite bind_ok by by apply py_len_ok.
  erewrite bind_ok by by apply last_position_ok. simpl.
  erewrite bind_ok by by apply getattr_ok.
  erewrite bind_ok by by rewrite lift_run, Hle. simpl.
  erewrite bind_ok by by apply getattr_ok.
  erewrite bind_ok by by rewrite lift_run, Hle'. simpl.
  erewrite bind_ok by by apply getattr_ok.
  destruct (py_eq time (VInt 0)); [|done].
  erewrite bind_ok by by apply getattr_ok.
  by destruct (py_eq tick (VInt 0)).
Qed.
End Reverse.

(** ** Return values and the chain *)

Section Returns.
Context {F : PyFloat} {E : Externals}.

Lemma returns_only_ret r : returns_only r (mret r).
Proof. intros σ v σ' H. unfold mret, M_ret in H. by simplify_eq. Qed.

Lemma returns_only_raise r e : returns_only r (raise e).
Proof. intros σ v σ' H. unfold raise in H. by simplify_eq. Qed.

Lemma returns_only_bind {A} r (m : M A) (k : A → M value) :
  (∀ a, returns_only r (k a)) → returns_only r (m ≫= k).
Proof.
  intros Hk σ v σ' H. unfold mbind, M_bind in H.
  destruct (m σ) as [[a|e] σ1]; [|done]. by eapply Hk.
Qed.

Lemma returns_only_if r (b : bool) (m1 m2 : M value) :
  returns_only r m1 → returns_only r m2 →
  returns_only r (if b then m1 else m2).
Proof. by destruct b. Qed.

(** Every path through a handler ends in [mret r] or in an exception. *)
#[local] Ltac every_path :=
  repeat first
    [ apply returns_only_ret
    | apply returns_only_raise
    | apply returns_only_if
    | apply returns_only_bind; intros ?
    | match goal with
      | |- returns_only _ (let '(_, _) := ?p in _) => destruct p
      end ].

Lemma track_name_returns_none c e i :
  returns_only VNone (track_name c e i).
Proof. unfold track_name. every_path. Qed.

Lemma instrument_name_returns_none c e i :
  returns_only VNone (instrument_name c e i).
Proof. unfold instrument_name. every_path. Qed.

Lemma set_tempo_returns_none c e i : returns_only VNone (set_tempo c e i).
Proof. unfold set_tempo. every_path. Qed.

Lemma time_signature_returns_none c e i :
  returns_only VNone (time_signature c e i).
Proof. unfold time_signature. every_path. Qed.

Lemma global_tempo_returns_none c e i :
  returns_only VNone (global_tempo c e i).
Proof. unfold global_tempo. every_path. Qed.

Lemma start_pattern_returns_none c e i :
  returns_only VNone (start_pattern c e i).
Proof. unfold start_pattern. every_path. Qed.

Lemma create_tracks_returns_none c e i :
  returns_only VNone (create_tracks c e i).
Proof. unfold create_tracks. every_path. Qed.

Lemma sort_events_returns_none c e i : returns_only VNone (sort_events c e i).
Proof. unfold sort_events. every_path. Qed.

Lemma stop_track_returns_none c e i : returns_only VNone (stop_track c e i).
Proof. unfold stop_track. every_path. Qed.

Lemma event_tick_returns_none c e i : returns_only VNone (event_tick c e i).
Proof. unfold event_tick. every_path. Qed.

Lemma event_time_returns_none c e i : returns_only VNone (event_time c e i).
Proof. unfold event_time. every_path. Qed.

Lemma event_delta_time_returns_none c e i :
  returns_only VNone (event_delta_time c e i).
Proof. unfold event_delta_time. every_path. Qed.

Lemma determine_delta_returns_none c e i :
  returns_only VNone (determine_delta c e i).
Proof. unfold determine_delta. every_path. Qed.

Lemma rehandle_returns_none c e i : returns_only VNone (rehandle c e i).
Proof. unfold rehandle. every_path. Qed.

Lemma time_profile_returns_none c e i :
  returns_only VNone (time_profile c e i).
Proof. unfold time_profile. every_path. Qed.

Lemma set_division_returns_true c e i :
  returns_only (VBool true) (set_division c e i).
Proof. unfold set_division. every_path. Qed.

Lemma handler_returns_only n c e i :
  returns_only (if decide (n = h_set_division) then VBool true else VNone)
    (handler_of n c e i).
Proof.
  destruct n; simpl;
    [ apply track_name_returns_none | apply instrument_name_returns_none
    | apply set_tempo_returns_none | apply time_signature_returns_none
    | apply global_tempo_returns_none | apply start_pattern_returns_none
    | apply create_tracks_returns_none | apply sort_events_returns_none
    | apply stop_track_returns_none | apply event_tick_returns_none
    | apply event_time_returns_none | apply event_delta_time_returns_none
    | apply determine_delta_returns_none | apply set_division_returns_true
    | apply rehandle_returns_none | apply time_profile_returns_none ].
Qed.

(** A chain made of handlers other than [set_division] is never stopped by
    a return value: when it completes, it has run through. *)
Lemma chain_without_set_division_runs_through ns c e i σ b σ' :
  Forall (λ n, n ≠ h_set_division) ns →
  run_chain (map handler_of ns) c e i σ = (Ok b, σ') →
  b = false.
Proof.
  intros Hns. revert σ. induction Hns as [|n ns Hn _ IH]; intros σ Hrun.
  - unfold run_chain, mret, M_ret in Hrun. simpl in Hrun. by simplify_eq.
  - simpl in Hrun. unfold mbind at 1, M_bind at 1 in Hrun.
    destruct (handler_of n c e i σ) as [[v|x] σ1] eqn:Hh; [|done].
    apply handler_returns_only in Hh.
    rewrite decide_False in Hh by done. subst v.
    by apply IH in Hrun.
Qed.

(** C10, as the code has it.  Whenever a handler of the module returns,
    the value is [True] for [set_division] and [None] for every other
    handler: no handler other than [set_division] ever returns a value that
    stops the chain.  (A handler may also end by raising an exception, in
    which case it returns nothing.) *)
Theorem only_set_division_returns_truthy n c e i σ v σ' :
  handler_of n c e i σ = (Ok v, σ') →
  v = (if decide (n = h_set_division) then VBool true else VNone) ∧
  (n ≠ h_set_division → truthy v σ' = (Ok false, σ')).
Proof.
  intros Hh. apply handler_returns_only in Hh. split; [done|].
  intros Hn. rewrite decide_False in Hh by done. by subst v.
Qed.
End Returns.

(** ** The handlers on concrete stores *)

Section Concrete.
#[local] Existing Instance rational_float.
#[local] Existing Instance sample_externals.

#[local] Ltac evaluate := vm_compute; reflexivity.

(** The example of the spec: on an empty track, an event with tick 100 and
    no other position gets delta 100 (rule 3a). *)
Example determine_delta_empty_track :
  determine_delta (VRef 0%nat) (VRef 1%nat) 0 state_empty_track
  = (Ok VNone, assign state_empty_track 1%nat "delta" (VInt 100)) ∧
  attr_of (assign state_empty_track 1%nat "delta" (VInt 100)) 1%nat "delta"
  = Some (VInt 100).
Proof.
  split; [|evaluate].
  apply (@determine_delta_from_tick rational_float sample_externals
           state_empty_track 0%nat 1%nat 0
           (VInt 0) (VInt 0) (VInt 0) (VInt 0) (VInt 100) (VInt 100));
    evaluate.
Qed.

(** The example of the spec: at division 480 and 500000 microseconds per
    beat, an event with delta 480 after an event at tick 0, 0 ms gets
    tick 480 and 500 ms. *)
Example forward_chain_example :
  let σ' := (run_chain [event_tick; event_time; event_delta_time]
               (VRef 0%nat) (VRef 2%nat) 1 state_forward).2 in
  attr_of σ' 2%nat "tick" = Some (VInt 480) ∧
  attr_of σ' 2%nat "time" = Some (VFloat 500%Q) ∧
  attr_of σ' 2%nat "delta_time" = Some (VFloat 500%Q).
Proof. split_and!; evaluate. Qed.

(** C1.  Rule 3b of [determine_delta] on a track at division 480, tempo
    500000 whose last event is at tick 200, 100 ms, for an event that
    carries only the absolute time 300 ms: the rule is to give
    [delta = ms_to_de(300 - 100, 480, 500000) = 192]; the handler reads
    [container.track] where rule 2 reads [container.division], raises
    [AttributeError] and leaves the event's delta at 0. *)
Theorem determine_delta_time_rule_reads_track :
  determine_delta (VRef 0%nat) (VRef 2%nat) 1 state_time_only
  = (Raise (AttributeError "track"), state_time_only) ∧
  attr_of state_time_only 2%nat "delta" = Some (VInt 0) ∧
  attr_of state_time_only 0%nat "division" = Some (VInt 480) ∧
  ms_to_de (VFloat 200%Q) (VInt 480) (VInt 500000) = Ok (VInt 192).
Proof.
  split_and!; [|evaluate..].
  apply (@determine_delta_from_time_raises rational_float sample_externals
           state_time_only 0%nat 2%nat 1
           (VInt 0) (VInt 0) (VInt 200) (VFloat 100%Q) (VInt 0)
           (VFloat 300%Q) (VFloat 200%Q));
    evaluate.
Qed.

(** C2.  Case 3d of [determine_delta], for an event claiming tick 50,
    30 ms after an event at tick 200, 100 ms, with no delta: the handler
    returns [None], raises nothing and leaves the state as it is, the
    event's delta staying 0. *)
Theorem determine_delta_unresolvable_is_silent :
  determine_delta (VRef 0%nat) (VRef 2%nat) 1 state_unresolvable
  = (Ok VNone, state_unresolvable) ∧
  attr_of state_unresolvable 2%nat "delta" = Some (VInt 0).
Proof.
  split; [|evaluate].
  apply (@determine_delta_falls_through rational_float sample_externals
           state_unresolvable 0%nat 2%nat 1
           (VInt 0) (VInt 0) (VInt 200) (VFloat 100%Q) (VInt 50)
           (VFloat 30%Q));
    evaluate.
Qed.

(** C5.  On a pattern of two tracks, a tempo change to 400000 handled by
    [global_tempo] raises [NameError]; both tracks keep 500000
    microseconds per beat. *)
Theorem global_tempo_changes_no_track :
  global_tempo (VRef 0%nat) (VRef 3%nat) 0 state_two_tracks
  = (Raise (NameError "Pattern"), state_two_tracks) ∧
  attr_of state_two_tracks 3%nat "tempo" = Some (VInt 400000) ∧
  attr_of state_two_tracks 1%nat "_mpb" = Some (VInt 500000) ∧
  attr_of state_two_tracks 2%nat "_mpb" = Some (VInt 500000).
Proof. split_and!; [apply global_tempo_raises|evaluate..]. Qed.

(** C8.  On an empty pattern, a stream-start marker declaring division 480
    and three tracks: [start_pattern] sets [divisions] to 480, and
    [create_tracks] raises [NameError] at the first [Track()], the pattern
    still holding no track. *)
Theorem stream_start_creates_no_track :
  let σ1 := assign state_stream_start 0%nat "divisions" (VInt 480) in
  start_pattern (VRef 0%nat) (VRef 1%nat) 0 state_stream_start
  = (Ok VNone, σ1) ∧
  create_tracks (VRef 0%nat) (VRef 1%nat) 0 σ1
  = (Raise (NameError "Track"), σ1) ∧
  items_of σ1 0%nat = Some [].
Proof.
  split_and!.
  - apply start_pattern_ok; [evaluate|].
    apply (items_of_is_Some _ _ []). evaluate.
  - apply (@create_tracks_raises rational_float sample_externals
             _ 0%nat 1%nat 0 3 []);
      [evaluate|lia|evaluate].
  - evaluate.
Qed.

(** C9.  On a track at 500000 microseconds per beat, a tempo change to
    400000 handled by [set_tempo] is stored under [msb]; [_mpb], which
    [event_time] and [event_delta_time] read, stays 500000, and an event of
    delta 480 at division 480 is then placed at 500 ms, not 400 ms. *)
Theorem set_tempo_misses_mpb :
  let σ1 := assign state_tempo_change 0%nat "msb" (VInt 400000) in
  set_tempo (VRef 0%nat) (VRef 1%nat) 0 state_tempo_change = (Ok VNone, σ1) ∧
  attr_of σ1 0%nat "_mpb" = Some (VInt 500000) ∧
  event_time (VRef 0%nat) (VRef 2%nat) 0 σ1
  = (Ok VNone, assign σ1 2%nat "time" (VFloat 500%Q)) ∧
  event_delta_time (VRef 0%nat) (VRef 2%nat) 0 σ1
  = (Ok VNone, assign σ1 2%nat "delta_time" (VFloat 500%Q)) ∧
  de_to_ms (VInt 480) (VInt 480) (VInt 400000) = Ok (VFloat 400%Q).
Proof.
  split_and!.
  - apply set_tempo_ok; [evaluate|].
    apply (items_of_is_Some _ _ []). evaluate.
  - evaluate.
  - apply (@event_time_ok rational_float sample_externals
             _ 0%nat 2%nat 0 [] (VInt 480) (VInt 480)
             (VInt 500000) (VInt 0) (VFloat 500%Q));
      first [ simpl; lia | evaluate ].
  - apply (@event_delta_time_ok rational_float sample_externals
             _ 0%nat 2%nat 0 (VInt 480) (VInt 480) (VInt 500000));
      evaluate.
  - evaluate.
Qed.

(** C6, counterexample.  A pattern of one track with the cursor at 1
    satisfies the invariant; a track-end marker is accepted without any
    error and the cursor moves to 2, past the number of tracks. *)
Lemma stop_track_passes_the_end :
  pattern_inv state_exhausted 0%nat ∧
  ∃ σ',
    stop_track (VRef 0%nat) (VRef 2%nat) 0 state_exhausted = (Ok VNone, σ') ∧
    attr_of σ' 0%nat "track_index" = Some (VInt 2) ∧
    items_of σ' 0%nat = Some [VRef 1%nat] ∧
    ¬ pattern_inv σ' 0%nat.
Proof.
  split.
  - exists 1, [VRef 1%nat]. split_and!; [evaluate|evaluate|lia|simpl; lia].
  - exists (assign state_exhausted 0%nat "track_index" (VInt (1 + 1))).
    split_and!.
    + apply stop_track_ok. evaluate.
    + evaluate.
    + evaluate.
    + intros (k & its & Hk & Hits & Hrange).
      assert (Some (VInt k) = Some (VInt 2)) as Hk'
        by (rewrite <- Hk; evaluate).
      assert (Some its = Some [VRef 1%nat]) as Hits'
        by (rewrite <- Hits; evaluate).
      simplify_eq. simpl in Hrange. lia.
Qed.

(** C10, counterexample.  [sort_events] does not return [None] on every
    input: with the cursor past the last track it raises [IndexError], and
    the exception, not a return value, ends the chain before [stop_track]
    runs. *)
Lemma sort_events_raises_past_the_end :
  handler_of h_sort_events (VRef 0%nat) (VRef 2%nat) 0 state_exhausted
  = (Raise IndexError, state_exhausted) ∧
  run_chain [sort_events; stop_track] (VRef 0%nat) (VRef 2%nat) 0
    state_exhausted
  = (Raise IndexError, state_exhausted).
Proof.
  assert (sort_events (VRef 0%nat) (VRef 2%nat) 0 state_exhausted
          = (Raise IndexError, state_exhausted)) as H.
  { apply (@sort_events_cursor_past_end rational_float sample_externals
             _ 0%nat _ 0 1 [VRef 1%nat]);
      first [ simpl; lia | evaluate ]. }
  split; [exact H|]. simpl. by erewrite bind_raise.
Qed.

(** *** Instances of the general properties *)

Lemma forward_derivation_witness :
  event_tick (VRef 0%nat) (VRef 2%nat) 1 state_forward
  = (Ok VNone, assign state_forward 2%nat "tick" (VInt 480)) ∧
  event_time (VRef 0%nat) (VRef 2%nat) 1 state_forward
  = (Ok VNone, assign state_forward 2%nat "time" (VFloat 500%Q)) ∧
  event_delta_time (VRef 0%nat) (VRef 2%nat) 1 state_forward
  = (Ok VNone, assign state_forward 2%nat "delta_time" (VFloat 500%Q)).
Proof.
  apply (@forward_derivation rational_float sample_externals
           state_forward 0%nat 2%nat 1 [VRef 1%nat]
           (VInt 480) (VInt 480) (VInt 500000) (VInt 0) (VInt 0)
           (VFloat 500%Q) (VInt 480) (VFloat 500%Q));
    first [ simpl; lia | vm_compute; reflexivity ].
Defined.

Lemma rehandle_witness :
  let σ' := (rehandle (VRef 0%nat) (VRef 4%nat) 1 state_three_events).2 in
  (trace σ' = trace state_three_events ++ [MethodCall 0%nat "rehandle" []]
   ↔ 1 < Z.of_nat (length [VRef 1%nat; VRef 2%nat; VRef 3%nat])
     ∧ VRef 4%nat ∉ [VRef 1%nat; VRef 2%nat; VRef 3%nat]) ∧
  (1 < Z.of_nat (length [VRef 1%nat; VRef 2%nat; VRef 3%nat])
   ∧ VRef 4%nat ∉ [VRef 1%nat; VRef 2%nat; VRef 3%nat] →
   heap σ'
   = (invoke_method 0%nat "rehandle" [] (heap state_three_events)).2) ∧
  (¬ (1 < Z.of_nat (length [VRef 1%nat; VRef 2%nat; VRef 3%nat])
      ∧ VRef 4%nat ∉ [VRef 1%nat; VRef 2%nat; VRef 3%nat]) →
   rehandle (VRef 0%nat) (VRef 4%nat) 1 state_three_events
   = (Ok VNone, state_three_events)).
Proof.
  apply (@rehandle_iff_mid_sequence_insertion rational_float
           sample_externals state_three_events 0%nat 4%nat 1
           [VRef 1%nat; VRef 2%nat; VRef 3%nat]).
  vm_compute. reflexivity.
Defined.

Lemma set_division_witness :
  set_division (VRef 0%nat) (VRef 2%nat) 0 state_private_division
  = (Ok (VBool true),
     assign state_private_division 2%nat "division" (VInt 48)) ∧
  attr_of (assign state_private_division 2%nat "division" (VInt 48)) 2%nat
    "division" = Some (VInt 48) ∧
  ∀ rest,
    run_chain (set_division :: rest) (VRef 0%nat) (VRef 2%nat) 0
      state_private_division
    = (Ok true, assign state_private_division 2%nat "division" (VInt 48)).
Proof.
  apply (@set_division_syncs_and_stops rational_float
           state_private_division 0%nat 2%nat 0 (VInt 48) []);
    vm_compute; reflexivity.
Defined.

Lemma cursor_invariant_witness :
  let σ' := assign state_two_tracks 0%nat "track_index" (VInt (0 + 1)) in
  stop_track (VRef 0%nat) (VRef 3%nat) 0 state_two_tracks = (Ok VNone, σ') ∧
  attr_of σ' 0%nat "track_index" = Some (VInt (0 + 1)) ∧
  items_of σ' 0%nat = Some [VRef 1%nat; VRef 2%nat] ∧
  (pattern_inv σ' 0%nat
   ↔ 0 < Z.of_nat (length [VRef 1%nat; VRef 2%nat])) ∧
  pattern_inv
    (start_pattern (VRef 0%nat) (VRef 3%nat) 0 state_two_tracks).2 0%nat ∧
  pattern_inv
    (set_division (VRef 0%nat) (VRef 3%nat) 0 state_two_tracks).2 0%nat.
Proof.
  apply (@cursor_invariant rational_float
           state_two_tracks 0%nat (VRef 3%nat) 0 0
           [VRef 1%nat; VRef 2%nat]);
    first [ simpl; lia | vm_compute; reflexivity ].
Defined.

(** [stop_track] on the pattern of two tracks returns [None], which does
    not stop the chain. *)
Lemma only_set_division_returns_truthy_witness :
  let σ' := assign state_two_tracks 0%nat "track_index" (VInt (0 + 1)) in
  VNone = (if decide (h_stop_track = h_set_division)
           then VBool true else VNone) ∧
  (h_stop_track ≠ h_set_division → truthy VNone σ' = (Ok false, σ')).
Proof.
  apply (@only_set_division_returns_truthy rational_float sample_externals
           h_stop_track (VRef 0%nat)
           (VRef 3%nat) 0 state_two_tracks).
  apply stop_track_ok. vm_compute. reflexivity.
Defined.

End Concrete.

(** ** What the handlers leave alone *)

Section Frames.
Context {F : PyFloat} {E : Externals}.

Lemma readonly_ret {A} (a : A) : readonly (mret a : M A).
Proof. done. Qed.

Lemma readonly_raise {A} x : readonly (raise x : M A).
Proof. done. Qed.

Lemma readonly_lift {A} (r : outcome A) : readonly (lift r).
Proof. done. Qed.

Lemma readonly_bind {A B} (m : M A) (k : A → M B) :
  readonly m → (∀ a, readonly (k a)) → readonly (m ≫= k).
Proof.
  intros Hm Hk σ. unfold mbind, M_bind. specialize (Hm σ).
  destruct (m σ) as [[a|x] σ1]; simpl in Hm; subst σ1; [apply Hk|done].
Qed.

(** A computation that always raises, cleanly, cuts off what follows. *)
Lemma readonly_bind_raises {A B} (m : M A) (k : A → M B) :
  (∀ σ, ∃ x, m σ = (Raise x, σ)) → readonly (m ≫= k).
Proof.
  intros Hm σ. unfold mbind, M_bind. destruct (Hm σ) as [x ->]. done.
Qed.

Lemma readonly_if {A} (b : bool) (m1 m2 : M A) :
  readonly m1 → readonly m2 → readonly (if b then m1 else m2).
Proof. by destruct b. Qed.

Lemma readonly_deref v x : readonly (deref v x).
Proof.
  intros σ. unfold deref. destruct v; try done. by destruct (heap σ !! l).
Qed.

Lemma readonly_getattr v name : readonly (getattr v name).
Proof. intros σ. apply getattr_state. Qed.

Lemma readonly_sequence_of v : readonly (sequence_of v).
Proof.
  apply readonly_bind; [apply readonly_deref|]. intros [l o].
  destruct (items o); [apply readonly_ret|apply readonly_raise].
Qed.

Lemma readonly_py_len v : readonly (py_len v).
Proof.
  apply readonly_bind; [apply readonly_sequence_of|]. intros its.
  apply readonly_ret.
Qed.

Lemma readonly_getitem v i : readonly (getitem v i).
Proof.
  apply readonly_bind; [apply readonly_sequence_of|]. intros its.
  apply readonly_lift.
Qed.

Lemma readonly_load_method v name : readonly (load_method v name).
Proof.
  apply readonly_bind; [apply readonly_deref|]. intros [l o].
  destruct (items o); [apply readonly_ret|apply readonly_raise].
Qed.

Lemma readonly_py_range n : readonly (py_range n).
Proof.
  apply readonly_bind; [apply readonly_lift|]. intros k. apply readonly_ret.
Qed.

Lemma readonly_lookup_global name : readonly (lookup_global name).
Proof.
  unfold lookup_global.
  destruct (existsb (String.eqb name) module_globals);
    [apply readonly_ret|apply readonly_raise].
Qed.

(** The offset of [event_tick] and [event_time]. *)
Lemma readonly_offset container (index : Z) field :
  readonly (if 0 <? index
            then prev ← getitem container (index - 1); getattr prev field
            else mret (VInt 0)).
Proof.
  apply readonly_if; [|apply readonly_ret].
  apply readonly_bind; [apply readonly_getitem|]. intros prev.
  apply readonly_getattr.
Qed.

(** The tick and time [determine_delta] compares against. *)
Lemma readonly_last_fields container (n : Z) :
  readonly (if 0 <? n
            then last1 ← getitem container (-1);
                 tb ← getattr last1 "tick";
                 last2 ← getitem container (-1);
                 mb ← getattr last2 "time";
                 mret (tb, mb)
            else mret (VInt 0, VInt 0)).
Proof.
  apply readonly_if; [|apply readonly_ret].
  apply readonly_bind; [apply readonly_getitem|]. intros last1.
  apply readonly_bind; [apply readonly_getattr|]. intros tb.
  apply readonly_bind; [apply readonly_getitem|]. intros last2.
  apply readonly_bind; [apply readonly_getattr|]. intros mb.
  apply readonly_ret.
Qed.

(** [Track()] is never reached: each iteration of the loop of
    [create_tracks] stops at the name [Track]. *)
Lemma readonly_create_tracks_loop pattern (rng : list Z) :
  readonly (for_each rng (λ _,
    append ← load_method pattern "append";
    cls ← lookup_global "Track";
    t ← py_call cls [];
    call_method append "append" [t];;
    mret tt)).
Proof.
  induction rng as [|x rng IH]; simpl; [apply readonly_ret|].
  apply readonly_bind; [|by intros _].
  apply readonly_bind; [apply readonly_load_method|]. intros append.
  apply readonly_bind_raises. intros σ. by eexists.
Qed.

Lemma readonly_create_tracks pattern event index :
  readonly (create_tracks pattern event index).
Proof.
  unfold create_tracks.
  apply readonly_bind; [apply readonly_getattr|]. intros n.
  apply readonly_bind; [apply readonly_py_range|]. intros rng.
  apply readonly_bind; [apply readonly_create_tracks_loop|]. intros _.
  apply readonly_ret.
Qed.

Lemma readonly_global_tempo track event index :
  readonly (global_tempo track event index).
Proof.
  unfold global_tempo. apply readonly_bind_raises. intros σ. by eexists.
Qed.

(** *** Failing without a trace *)

Lemma fails_clean_readonly {A} (m : M A) : readonly m → fails_clean m.
Proof. intros Hm σ x σ' H. specialize (Hm σ). by rewrite H in Hm. Qed.

Lemma fails_clean_bind {A B} (m : M A) (k : A → M B) :
  readonly m → (∀ a, fails_clean (k a)) → fails_clean (m ≫= k).
Proof.
  intros Hm Hk σ x σ'. unfold mbind, M_bind. specialize (Hm σ).
  destruct (m σ) as [[a|y] σ1]; simpl in Hm; subst σ1.
  - apply Hk.
  - by intros [= _ <-].
Qed.

Lemma fails_clean_if {A} (b : bool) (m1 m2 : M A) :
  fails_clean m1 → fails_clean m2 → fails_clean (if b then m1 else m2).
Proof. by destruct b. Qed.

(** A single assignment followed by [return]: when the assignment cannot
    be made nothing has changed, and nothing after it can fail. *)
Lemma fails_clean_assign_return v name x (r : value) :
  fails_clean (setattr v name x;; mret r).
Proof.
  intros σ y σ'. unfold mbind at 1, M_bind at 1.
  unfold setattr, deref, store, mbind, M_bind.
  destruct v; try (by intros [= _ <-]).
  destruct (heap σ !! l); [done|by intros [= _ <-]].
Qed.

#[local] Ltac clean_reads :=
  repeat first
    [ apply fails_clean_assign_return
    | apply fails_clean_readonly; apply readonly_ret
    | apply fails_clean_if
    | apply fails_clean_bind;
      [ first [ apply readonly_getattr | apply readonly_lift
              | apply readonly_offset | apply readonly_py_len
              | apply readonly_last_fields ]
      | intros ? ]
    | match goal with
      | |- fails_clean (let '(_, _) := ?p in _) => destruct p
      end ].

Lemma handler_fails_clean n c e i :
  n ≠ h_time_signature → n ≠ h_sort_events → n ≠ h_rehandle →
  n ≠ h_time_profile →
  fails_clean (handler_of n c e i).
Proof.
  intros H1 H2 H3 H4. destruct n; try congruence; simpl.
  - unfold track_name. clean_reads.
  - unfold instrument_name. clean_reads.
  - unfold set_tempo. clean_reads.
  - apply fails_clean_readonly, readonly_global_tempo.
  - unfold start_pattern. clean_reads.
  - apply fails_clean_readonly, readonly_create_tracks.
  - unfold stop_track. clean_reads.
  - unfold event_tick. clean_reads.
  - unfold event_time. clean_reads.
  - unfold event_delta_time. clean_reads.
  - unfold determine_delta. clean_reads.
  - unfold set_division. clean_reads.
Qed.

(** X3.  Apart from [time_signature], [sort_events], [rehandle] and
    [time_profile], a handler that raises has changed nothing: the state
    after the exception is the state before the call. *)
Theorem failed_handler_leaves_state n c e i σ x :
  n ≠ h_time_signature → n ≠ h_sort_events → n ≠ h_rehandle →
  n ≠ h_time_profile →
  (handler_of n c e i σ).1 = Raise x →
  (handler_of n c e i σ).2 = σ.
Proof.
  intros H1 H2 H3 H4 Hraise.
  destruct (handler_of n c e i σ) as [r σ'] eqn:Hrun. simpl in *. subst r.
  by eapply handler_fails_clean.
Qed.

(** *** Frames *)

Lemma frame_readonly {A} W (m : M A) : readonly m → frame W m.
Proof. intros Hm σ. by rewrite (Hm σ). Qed.

Lemma frame_bind {A B} W (m : M A) (k : A → M B) :
  frame W m → (∀ a, frame W (k a)) → frame W (m ≫= k).
Proof.
  intros Hm Hk σ. unfold mbind, M_bind.
  destruct (Hm σ) as (Ht & Hi & Ha).
  destruct (m σ) as [[a|x] σ1]; simpl in *; [|done].
  destruct (Hk a σ1) as (Ht' & Hi' & Ha'). split_and!.
  - by rewrite Ht'.
  - intros l. by rewrite Hi'.
  - intros l name HW. by rewrite Ha', Ha.
Qed.

Lemma frame_if {A} W (b : bool) (m1 m2 : M A) :
  frame W m1 → frame W m2 → frame W (if b then m1 else m2).
Proof. by destruct b. Qed.

Lemma frame_setattr (W : loc → string → Prop) v name x :
  (∀ l, v = VRef l → W l name) → frame W (setattr v name x).
Proof.
  intros HW σ. rewrite setattr_state.
  destruct v as [| | | | |l|]; try done.
  split_and!.
  - apply trace_assign.
  - intros l'. apply items_of_assign.
  - intros l' name' Hout. destruct (decide (name = name')) as [<-|Hne].
    + apply attr_of_assign_other. intros <-. apply Hout. by apply HW.
    + by apply attr_of_assign_ne.
Qed.

#[local] Ltac framed :=
  repeat first
    [ apply frame_setattr; intros ? ->; split; [done|set_solver]
    | apply frame_readonly;
      first [ apply readonly_ret | apply readonly_getattr
            | apply readonly_lift | apply readonly_offset
            | apply readonly_py_len | apply readonly_last_fields
            | apply readonly_global_tempo | apply readonly_create_tracks ]
    | apply frame_if
    | apply frame_bind; [|intros ?]
    | match goal with
      | |- frame _ (let '(_, _) := ?p in _) => destruct p
      end ].

Lemma handler_frame n c e i :
  n ≠ h_sort_events → n ≠ h_rehandle → n ≠ h_time_profile →
  frame (λ l name, VRef l = target n c e ∧ name ∈ writes n)
    (handler_of n c e i).
Proof.
  intros H1 H2 H3. destruct n; try congruence; simpl.
  - unfold track_name. framed.
  - unfold instrument_name. framed.
  - unfold set_tempo. framed.
  - unfold time_signature. framed.
  - framed.
  - unfold start_pattern. framed.
  - framed.
  - unfold stop_track. framed.
  - unfold event_tick. framed.
  - unfold event_time. framed.
  - unfold event_delta_time. framed.
  - unfold determine_delta. framed.
  - unfold set_division. framed.
Qed.

(** X4.  Apart from [sort_events], [rehandle] and [time_profile], a
    handler makes no method call, changes the sequence of no container,
    and changes no attribute other than those of its write set on its
    target: the event for [event_tick] (tick), [event_time] (time),
    [event_delta_time] (delta_time), [determine_delta] (delta) and
    [set_division] (division); the container for [track_name] (name),
    [instrument_name] (instrument), [set_tempo] (msb), [time_signature]
    (timesig_den, timesig_num), [start_pattern] (divisions) and
    [stop_track] (track_index); nothing at all for [global_tempo] and
    [create_tracks]. *)
Theorem handler_write_set n c e i σ l name :
  n ≠ h_sort_events → n ≠ h_rehandle → n ≠ h_time_profile →
  let σ' := (handler_of n c e i σ).2 in
  trace σ' = trace σ ∧
  items_of σ' l = items_of σ l ∧
  (VRef l ≠ target n c e ∨ name ∉ writes n →
   attr_of σ' l name = attr_of σ l name).
Proof.
  intros H1 H2 H3 σ'. subst σ'.
  destruct (handler_frame n c e i H1 H2 H3 σ) as (Ht & Hi & Ha).
  split_and!; [done|done|]. intros Hout. apply Ha. tauto.
Qed.
End Frames.

(** ** Further properties of the handlers *)

Section Further.
Context {F : PyFloat} {E : Externals}.

Lemma getattr_none σ l name :
  is_Some (heap σ !! l) → attr_of σ l name = None →
  getattr (VRef l) name σ = (Raise (AttributeError name), σ).
Proof.
  intros [o Hl] Hnone. eapply getattr_missing; [done|].
  unfold attr_of in Hnone. by rewrite Hl in Hnone.
Qed.

(** Assigning the same value twice is assigning it once. *)
Lemma assign_twice σ l name x :
  assign (assign σ l name x) l name x = assign σ l name x.
Proof.
  unfold assign. destruct (heap σ !! l) as [o|] eqn:Hl; simpl.
  - rewrite lookup_insert_eq. simpl. by rewrite !insert_insert_eq.
  - by rewrite Hl.
Qed.

(** Python indexing inside [-len, len). *)
Lemma index_list_wraps (its : list value) k x :
  - Z.of_nat (length its) ≤ k < Z.of_nat (length its) →
  its !! Z.to_nat (if k <? 0 then k + Z.of_nat (length its) else k)
  = Some x →
  index_list its k = Ok x.
Proof.
  intros Hk Hx. unfold index_list. cbv zeta.
  destruct (k <? 0) eqn:Hneg.
  - replace ((0 <=? k + Z.of_nat (length its))
             && (k + Z.of_nat (length its) <? Z.of_nat (length its)))
      with true by (symmetry; apply andb_true_iff; split; lia).
    by rewrite Hx.
  - replace ((0 <=? k) && (k <? Z.of_nat (length its)))
      with true by (symmetry; apply andb_true_iff; split; lia).
    by rewrite Hx.
Qed.

Lemma index_list_outside (its : list value) k :
  k < - Z.of_nat (length its) ∨ Z.of_nat (length its) ≤ k →
  index_list its k = Raise IndexError.
Proof.
  intros Hk. unfold index_list. cbv zeta.
  destruct (k <? 0) eqn:Hneg.
  - destruct Hk as [Hk|Hk]; [|lia].
    by replace (0 <=? k + Z.of_nat (length its)) with false
      by (symmetry; lia).
  - destruct Hk as [Hk|Hk]; [lia|].
    replace (k <? Z.of_nat (length its)) with false by (symmetry; lia).
    by rewrite andb_false_r.
Qed.

(** X1.  [track_name] sets the track's [name] and [instrument_name] its
    [instrument] to the event's [text]; [time_signature] sets the track's
    [timesig_den] and [timesig_num] to the event's [denominator] and
    [numerator].  Each returns [None] and changes nothing else. *)
Theorem metadata_handlers_set_fields σ t e i :
  is_Some (items_of σ t) →
  (∀ text,
     attr_of σ e "text" = Some text →
     track_name (VRef t) (VRef e) i σ = (Ok VNone, assign σ t "name" text) ∧
     instrument_name (VRef t) (VRef e) i σ
     = (Ok VNone, assign σ t "instrument" text)) ∧
  (∀ num den,
     attr_of σ e "numerator" = Some num →
     attr_of σ e "denominator" = Some den →
     time_signature (VRef t) (VRef e) i σ
     = (Ok VNone,
        assign (assign σ t "timesig_den" den) t "timesig_num" num)).
Proof.
  intros [evs Ht]. apply items_of_is_Some in Ht. split.
  - intros text Htext. split.
    + by apply track_name_ok.
    + by apply instrument_name_ok.
  - intros num den Hnum Hden. by apply time_signature_ok.
Qed.

(** X2.  [time_signature] assigns the denominator before it reads the
    numerator: for an event that has a [denominator] but no [numerator]
    it raises [AttributeError] with the track's [timesig_den] already
    changed and its [timesig_num] not. *)
Theorem time_signature_half_applied σ t e i den :
  attr_of σ e "denominator" = Some den →
  attr_of σ e "numerator" = None →
  is_Some (items_of σ t) →
  time_signature (VRef t) (VRef e) i σ
  = (Raise (AttributeError "numerator"), assign σ t "timesig_den" den) ∧
  attr_of (assign σ t "timesig_den" den) t "timesig_den" = Some den ∧
  attr_of (assign σ t "timesig_den" den) t "timesig_num"
  = attr_of σ t "timesig_num".
Proof.
  intros Hden Hnum [evs Ht]. apply items_of_is_Some in Ht.
  split_and!.
  - unfold time_signature.
    erewrite bind_ok by by apply getattr_ok.
    erewrite bind_ok by by apply setattr_ok.
    erewrite bind_raise; [done|].
    apply getattr_none.
    + apply heap_assign_is_Some. by eapply attr_of_is_Some.
    + by rewrite attr_of_assign_ne.
  - by apply attr_of_assign_eq.
  - by apply attr_of_assign_ne.
Qed.

(** X5.  [create_tracks] returns [None] for [num_tracks <= 0] and raises
    [NameError] for [num_tracks >= 1]; in both cases the state is left
    exactly as it was: no track is appended and no [append] is called. *)
Theorem create_tracks_outcome σ p e i n tracks :
  attr_of σ e "num_tracks" = Some (VInt n) →
  items_of σ p = Some tracks →
  create_tracks (VRef p) (VRef e) i σ
  = (if 0 <? n then Raise (NameError "Track") else Ok VNone, σ).
Proof.
  intros Hn Hp. destruct (0 <? n) eqn:Hpos.
  - eapply create_tracks_raises; [done|lia|done].
  - eapply create_tracks_nothing_to_create; [done|lia].
Qed.

(** Inside the bounds, the event is handed to the track at the cursor. *)
Lemma sort_events_in_range σ p ev i k tracks t evs :
  attr_of σ p "track_index" = Some (VInt k) →
  items_of σ p = Some tracks →
  - Z.of_nat (length tracks) ≤ k < Z.of_nat (length tracks) →
  tracks !! Z.to_nat (if k <? 0 then k + Z.of_nat (length tracks) else k)
  = Some (VRef t) →
  items_of σ t = Some evs →
  sort_events (VRef p) ev i σ
  = (match (invoke_method t "append" [ev] (heap σ)).1 with
     | Ok _ => Ok VNone
     | Raise x => Raise x
     end,
     {| heap := (invoke_method t "append" [ev] (heap σ)).2;
        trace := trace σ ++ [MethodCall t "append" [ev]] |}).
Proof.
  intros Hk Hp Hrange Ht Hevs. unfold sort_events.
  erewrite bind_ok by by apply getattr_ok.
  erewrite bind_ok by done.
  erewrite bind_ok
    by (rewrite (getitem_ok _ _ tracks) by done;
        by rewrite (index_list_wraps tracks k (VRef t))).
  erewrite bind_ok by by eapply load_method_ok.
  unfold mbind, M_bind, call_method.
  by destruct (invoke_method t "append" [ev] (heap σ)) as [[v|x] h].
Qed.

(** X6.  With the cursor [k] inside [-len, len), [sort_events] hands the
    event to the track at index [k] of the pattern, counted from the end
    when [k] is negative: it makes exactly one call, [append(event)] on
    that track, leaves the state as that call leaves it, and returns
    [None] unless the call raises. *)
Theorem sort_events_delegates σ p ev i k tracks t evs :
  attr_of σ p "track_index" = Some (VInt k) →
  items_of σ p = Some tracks →
  - Z.of_nat (length tracks) ≤ k < Z.of_nat (length tracks) →
  tracks !! Z.to_nat (if k <? 0 then k + Z.of_nat (length tracks) else k)
  = Some (VRef t) →
  items_of σ t = Some evs →
  sort_events (VRef p) ev i σ
  = (match (invoke_method t "append" [ev] (heap σ)).1 with
     | Ok _ => Ok VNone
     | Raise x => Raise x
     end,
     {| heap := (invoke_method t "append" [ev] (heap σ)).2;
        trace := trace σ ++ [MethodCall t "append" [ev]] |}).
Proof. apply sort_events_in_range. Qed.

(** X7.  With the cursor outside [-len, len), [sort_events] raises
    [IndexError]: no track receives the event and nothing changes. *)
Theorem sort_events_cursor_out_of_range σ p ev i k tracks :
  attr_of σ p "track_index" = Some (VInt k) →
  items_of σ p = Some tracks →
  k < - Z.of_nat (length tracks) ∨ Z.of_nat (length tracks) ≤ k →
  sort_events (VRef p) ev i σ = (Raise IndexError, σ).
Proof.
  intros Hk Hp Hrange. unfold sort_events.
  erewrite bind_ok by by apply getattr_ok.
  erewrite bind_ok by done.
  erewrite bind_raise; [done|].
  rewrite (getitem_ok _ _ tracks) by done.
  by rewrite index_list_outside.
Qed.

(** X8.  After a track-end marker, the next event goes to the next track:
    [stop_track] followed by [sort_events] moves the cursor from [k] to
    [k + 1] and calls [append(event)] on the track at index [k + 1], and
    on no other. *)
Theorem stop_track_then_sort_events σ p marker ev i j k tracks t evs :
  attr_of σ p "track_index" = Some (VInt k) →
  items_of σ p = Some tracks →
  0 ≤ k + 1 < Z.of_nat (length tracks) →
  tracks !! Z.to_nat (k + 1) = Some (VRef t) →
  items_of σ t = Some evs →
  let σ1 := assign σ p "track_index" (VInt (k + 1)) in
  (stop_track (VRef p) marker i ≫= λ _, sort_events (VRef p) ev j) σ
  = (match (invoke_method t "append" [ev] (heap σ1)).1 with
     | Ok _ => Ok VNone
     | Raise x => Raise x
     end,
     {| heap := (invoke_method t "append" [ev] (heap σ1)).2;
        trace := trace σ ++ [MethodCall t "append" [ev]] |}).
Proof.
  intros Hk Hp Hrange Ht Hevs σ1.
  erewrite bind_ok by by apply stop_track_ok.
  fold σ1. rewrite <- (trace_assign σ p "track_index" (VInt (k + 1))).
  fold σ1.
  apply (sort_events_in_range σ1 p ev j (k + 1) tracks t evs).
  - apply attr_of_assign_eq. by eapply attr_of_is_Some.
  - subst σ1. by rewrite items_of_assign.
  - lia.
  - by replace (k + 1 <? 0) with false by (symmetry; lia).
  - subst σ1. by rewrite items_of_assign.
Qed.

(** The predecessor's field is not touched by an assignment to another
    object. *)
Lemma previous_assign_other σ e name x c i its field :
  items_of σ c = Some its →
  i = 0 ∨ its !! Z.to_nat (i - 1) ≠ Some (VRef e) →
  previous (assign σ e name x) c i field = previous σ c i field.
Proof.
  intros Hits Hpred. unfold previous. destruct (i =? 0) eqn:Hi; [done|].
  apply Z.eqb_neq in Hi. destruct Hpred as [?|Hpred]; [done|].
  rewrite items_of_assign, Hits. simpl.
  destruct (its !! Z.to_nat (i - 1)) as [[| | | | |l|]|]; try done.
  simpl. apply attr_of_assign_other. by intros ->.
Qed.

(** X9.  Re-running a forward handler changes nothing more: provided the
    event is not its own predecessor in the container, [event_tick] and
    [event_time] run twice leave the state of one run, and so does
    [event_delta_time] without any proviso. *)
Theorem forward_handlers_idempotent σ c e i its delta division mpb
    tick0 time0 ms tick time :
  items_of σ c = Some its →
  0 ≤ i ≤ Z.of_nat (length its) →
  i = 0 ∨ its !! Z.to_nat (i - 1) ≠ Some (VRef e) →
  previous σ c i "tick" = Some tick0 →
  previous σ c i "time" = Some time0 →
  attr_of σ e "delta" = Some delta →
  attr_of σ c "division" = Some division →
  attr_of σ c "_mpb" = Some mpb →
  de_to_ms delta division mpb = Ok ms →
  py_add tick0 delta = Ok tick →
  py_add time0 ms = Ok time →
  (event_tick (VRef c) (VRef e) i ≫= λ _, event_tick (VRef c) (VRef e) i) σ
  = event_tick (VRef c) (VRef e) i σ ∧
  (event_time (VRef c) (VRef e) i ≫= λ _, event_time (VRef c) (VRef e) i) σ
  = event_time (VRef c) (VRef e) i σ ∧
  (event_delta_time (VRef c) (VRef e) i
   ≫= λ _, event_delta_time (VRef c) (VRef e) i) σ
  = event_delta_time (VRef c) (VRef e) i σ.
Proof.
  intros Hits Hi Hpred Htick Htime Hdelta Hdiv Hmpb Hms Hadd1 Hadd2.
  split_and!.
  - erewrite bind_ok by by eapply event_tick_ok.
    rewrite (event_tick_ok σ c e i its delta tick0 tick) by done.
    rewrite <- (assign_twice σ e "tick" tick) at 2.
    eapply event_tick_ok; try done.
    + by rewrite items_of_assign.
    + by rewrite (previous_assign_other _ _ _ _ _ _ its).
    + by rewrite attr_of_assign_ne.
  - erewrite bind_ok by by eapply event_time_ok.
    rewrite (event_time_ok σ c e i its delta division mpb time0 ms time)
      by done.
    rewrite <- (assign_twice σ e "time" time) at 2.
    eapply event_time_ok; try done.
    + by rewrite items_of_assign.
    + by rewrite (previous_assign_other _ _ _ _ _ _ its).
    + by rewrite attr_of_assign_ne.
    + by rewrite attr_of_assign_ne.
    + by rewrite attr_of_assign_ne.
  - erewrite bind_ok by by eapply event_delta_time_ok.
    rewrite (event_delta_time_ok σ c e i delta division mpb ms) by done.
    rewrite <- (assign_twice σ e "delta_time" ms) at 2.
    eapply event_delta_time_ok; try done; by rewrite attr_of_assign_ne.
Qed.

(** *** Ticks as running sums of deltas *)

Lemma ticks_resolved_assign_other σ e name x offset its :
  VRef e ∉ its →
  ticks_resolved (assign σ e name x) offset its
  = ticks_resolved σ offset its.
Proof.
  revert offset. induction its as [|p its IH]; intros offset Hnotin; [done|].
  apply not_elem_of_cons in Hnotin as [Hp Hnotin]. simpl.
  destruct p as [| | | | |l|]; try done.
  assert (e ≠ l) as Hne by (by intros ->).
  rewrite !attr_of_assign_other by done.
  destruct (attr_of σ l "delta") as [[| |d| | | |]|]; try done.
  destruct (attr_of σ l "tick") as [[| |t| | | |]|]; try done.
  destruct (t =? offset + d); [by apply IH|done].
Qed.

Lemma ticks_resolved_app σ offset its1 its2 T :
  ticks_resolved σ offset its1 = Some T →
  ticks_resolved σ offset (its1 ++ its2) = ticks_resolved σ T its2.
Proof.
  revert offset. induction its1 as [|p its1 IH]; intros offset H.
  - simpl in H. by simplify_eq.
  - simpl in *. destruct p as [| | | | |l|]; try done.
    destruct (attr_of σ l "delta") as [[| |d| | | |]|]; try done.
    destruct (attr_of σ l "tick") as [[| |t| | | |]|]; try done.
    destruct (t =? offset + d); [by apply IH|done].
Qed.

(** With resolved ticks, the last event carries the final tick. *)
Lemma ticks_resolved_last σ offset its T :
  ticks_resolved σ offset its = Some T →
  match last its with
  | None => T = offset
  | Some p => ∃ l, p = VRef l ∧ attr_of σ l "tick" = Some (VInt T)
  end.
Proof.
  revert offset. induction its as [|p its IH]; intros offset H.
  - simpl in *. by simplify_eq.
  - simpl in H. destruct p as [| | | | |l|]; try done.
    destruct (attr_of σ l "delta") as [[| |d| | | |]|]; try done.
    destruct (attr_of σ l "tick") as [[| |t| | | |]|] eqn:Htick; try done.
    destruct (t =? offset + d); [|done].
    specialize (IH _ H). destruct its as [|q its].
    + simpl in *. simplify_eq. by exists l.
    + change (last (VRef l :: q :: its)) with (last (q :: its)).
      destruct (last (q :: its)) eqn:Hq; [exact IH|].
      by apply last_None in Hq.
Qed.

(** At the end of a container with resolved ticks, the predecessor's
    tick is the final tick. *)
Lemma previous_at_end σ c its T :
  items_of σ c = Some its →
  ticks_resolved σ 0 its = Some T →
  previous σ c (Z.of_nat (length its)) "tick" = Some (VInt T).
Proof.
  intros Hits Hres. apply ticks_resolved_last in Hres.
  unfold previous. rewrite Hits.
  destruct its as [|p its] using rev_ind.
  - simpl in *. by subst.
  - rewrite last_snoc in Hres. destruct Hres as (l & -> & Htick).
    rewrite length_app. cbn [length].
    destruct (Z.eqb_spec (Z.of_nat (length its + 1)) 0) as [?|_]; [lia|].
    cbn [mbind option_bind].
    replace (Z.to_nat (Z.of_nat (length its + 1) - 1)) with (length its)
      by lia.
    rewrite lookup_app_r by lia. rewrite Nat.sub_diag. simpl. done.
Qed.

(** X10.  Appending keeps ticks the running sums of deltas: if every
    event of the track has [tick = predecessor's tick + delta] (the first
    from 0), integers throughout, then for a new event handled at the end
    of the track [event_tick] sets its tick to the last tick plus its
    delta, and the track followed by the new event has the same
    property. *)
Theorem event_tick_extends_resolved_ticks σ c e its T d :
  items_of σ c = Some its →
  ticks_resolved σ 0 its = Some T →
  VRef e ∉ its →
  attr_of σ e "delta" = Some (VInt d) →
  event_tick (VRef c) (VRef e) (Z.of_nat (length its)) σ
  = (Ok VNone, assign σ e "tick" (VInt (T + d))) ∧
  ticks_resolved (assign σ e "tick" (VInt (T + d))) 0 (its ++ [VRef e])
  = Some (T + d).
Proof.
  intros Hits Hres Hnotin Hdelta. split.
  - apply (event_tick_ok σ c e _ its (VInt d) (VInt T) (VInt (T + d)));
      [done|lia|by apply previous_at_end|done|done].
  - rewrite (ticks_resolved_app _ _ _ _ T)
      by by rewrite ticks_resolved_assign_other.
    simpl. rewrite attr_of_assign_ne by done. rewrite Hdelta.
    rewrite attr_of_assign_eq by by eapply attr_of_is_Some.
    by rewrite Z.eqb_refl.
Qed.

(** X11.  Reverse then forward derivation on an absolute tick.  For an
    event with no delta and no delta_time whose tick [T] is not before
    the tick [LT] of the container's last event, [determine_delta]
    followed by [event_tick] at index [i] sets [delta = T - LT] and
    [tick = PT + (T - LT)], where [PT] is the tick of the event at index
    [i - 1].  For an append ([i = len(container)]) the tick is [T]
    again. *)
Theorem absolute_tick_round_trip σ c e i its delta delta_time LT mb T PT :
  items_of σ c = Some its →
  0 ≤ i ≤ Z.of_nat (length its) →
  attr_of σ e "delta" = Some delta →
  py_ne delta (VInt 0) = false →
  attr_of σ e "delta_time" = Some delta_time →
  py_ne delta_time (VInt 0) = false →
  last_position σ c = Some (VInt LT, mb) →
  attr_of σ e "tick" = Some (VInt T) →
  LT ≤ T →
  previous σ c i "tick" = Some (VInt PT) →
  (determine_delta (VRef c) (VRef e) i
   ≫= λ _, event_tick (VRef c) (VRef e) i) σ
  = (Ok VNone,
     assign (assign σ e "delta" (VInt (T - LT))) e "tick"
       (VInt (PT + (T - LT)))) ∧
  (i = Z.of_nat (length its) → PT + (T - LT) = T).
Proof.
  intros Hits Hi Hd Hd0 Hdt Hdt0 Hlast Htick Hle Hprev. split.
  - erewrite bind_ok.
    2:{ eapply (determine_delta_from_tick σ c e i delta delta_time
                  (VInt LT) mb (VInt T) (VInt (T - LT))); try done.
        unfold py_le. simpl. f_equal. lia. }
    eapply event_tick_ok.
    + by rewrite items_of_assign.
    + done.
    + by rewrite previous_assign_ne.
    + apply attr_of_assign_eq. by eapply attr_of_is_Some.
    + done.
  - intros ->. enough (PT = LT) by lia.
    unfold last_position in Hlast. rewrite Hits in Hlast. simpl in Hlast.
    unfold previous in Hprev. rewrite Hits in Hprev. simpl in Hprev.
    destruct its as [|p its] using rev_ind.
    + simpl in *. by simplify_eq.
    + rewrite last_snoc in Hlast. rewrite length_app in Hprev.
      cbn [length] in Hprev.
      destruct (Z.eqb_spec (Z.of_nat (length its + 1)) 0) as [?|_]; [lia|].
      replace (Z.to_nat (Z.of_nat (length its + 1) - 1))
        with (length its) in Hprev by lia.
      rewrite lookup_app_r in Hprev by lia.
      rewrite Nat.sub_diag in Hprev. simpl in Hprev.
      destruct p as [| | | | |l|]; try done.
      rewrite Hprev in Hlast. simpl in Hlast.
      destruct (attr_of σ l "time"); by simplify_eq/=.
Qed.

(** X12.  A nonzero delta is final: [determine_delta] returns [None] and
    leaves the state as it is, whatever the event's other fields and
    whatever the container (it is not even inspected). *)
Theorem nonzero_delta_is_kept σ c e i delta :
  attr_of σ e "delta" = Some delta →
  py_ne delta (VInt 0) = true →
  determine_delta c (VRef e) i σ = (Ok VNone, σ).
Proof. apply determine_delta_resolved. Qed.

(** X13.  A nonzero delta_time takes precedence over the event's tick
    and time: with a zero delta, [determine_delta] sets
    [delta = ms_to_de(delta_time, division, tempo)] without looking at
    the events the container holds. *)
Theorem delta_time_takes_precedence σ c e i delta delta_time
    division tempo d :
  attr_of σ e "delta" = Some delta →
  py_ne delta (VInt 0) = false →
  attr_of σ e "delta_time" = Some delta_time →
  py_ne delta_time (VInt 0) = true →
  attr_of σ c "division" = Some division →
  attr_of σ c "tempo" = Some tempo →
  ms_to_de delta_time division tempo = Ok d →
  determine_delta (VRef c) (VRef e) i σ = (Ok VNone, assign σ e "delta" d) ∧
  attr_of (assign σ e "delta" d) e "tick" = attr_of σ e "tick" ∧
  attr_of (assign σ e "delta" d) e "time" = attr_of σ e "time".
Proof.
  intros. split_and!.
  - by eapply determine_delta_from_delta_time.
  - by apply attr_of_assign_ne.
  - by apply attr_of_assign_ne.
Qed.

(** X14.  [time_profile] takes one clock reading: it sets the event's
    [exit_time] to it and its [exit_delta] to the same reading minus the
    container's [start_time], and returns [None]. *)
Theorem time_profile_stamps σ σ1 c e i now start d :
  ytime σ = (Ok now, σ1) →
  is_Some (heap σ1 !! e) →
  attr_of σ1 c "start_time" = Some start →
  py_sub now start = Ok d →
  time_profile (VRef c) (VRef e) i σ
  = (Ok VNone,
     assign (assign σ1 e "exit_time" now) e "exit_delta" d).
Proof.
  intros Hnow He Hstart Hsub. unfold time_profile.
  erewrite bind_ok by done.
  erewrite bind_ok by by apply setattr_ok.
  erewrite bind_ok
    by (apply getattr_ok; by rewrite attr_of_assign_ne).
  erewrite bind_ok by by rewrite lift_run, Hsub.
  erewrite bind_ok; [done|].
  apply setattr_ok. by apply heap_assign_is_Some.
Qed.
End Further.

(** ** Index bounds of the forward handlers *)

Section Bounds.
Context {F : PyFloat} {E : Externals}.

(** X15.  The index bounds of [event_tick] and [event_time].  An index of
    0 or less, negative ones included, means no predecessor: the offset
    is 0 whatever the container holds, and [event_tick] sets
    [tick = 0 + delta].  An index greater than the container's length
    makes both handlers raise [IndexError], the event left as it is. *)
Theorem forward_handlers_index_bounds σ c e i its delta :
  items_of σ c = Some its →
  attr_of σ e "delta" = Some delta →
  (∀ tick,
     i ≤ 0 → py_add (VInt 0) delta = Ok tick →
     event_tick (VRef c) (VRef e) i σ
     = (Ok VNone, assign σ e "tick" tick)) ∧
  (Z.of_nat (length its) < i →
   event_tick (VRef c) (VRef e) i σ = (Raise IndexError, σ) ∧
   event_time (VRef c) (VRef e) i σ = (Raise IndexError, σ)).
Proof.
  intros Hits Hdelta. split.
  - intros tick Hi Hadd. unfold event_tick.
    replace (0 <? i) with false by (symmetry; lia).
    erewrite bind_ok by done.
    erewrite bind_ok by by apply getattr_ok.
    erewrite bind_ok by by rewrite lift_run, Hadd.
    erewrite bind_ok; [done|].
    apply setattr_ok. by eapply attr_of_is_Some.
  - intros Hi.
    assert ((if 0 <? i
             then prev ← getitem (VRef c) (i - 1); getattr prev "tick"
             else mret (VInt 0)) σ = (Raise IndexError, σ)
            ∧ (if 0 <? i
               then prev ← getitem (VRef c) (i - 1); getattr prev "time"
               else mret (VInt 0)) σ = (Raise IndexError, σ))
      as [Htick Htime].
    { replace (0 <? i) with true by (symmetry; lia).
      split; (erewrite bind_raise; [done|]);
        rewrite (getitem_ok _ _ its) by done;
        (rewrite index_list_past_end by lia); done. }
    split.
    + unfold event_tick. by erewrite bind_raise.
    + unfold event_time. by erewrite bind_raise.
Qed.
End Bounds.

(** ** The further properties on concrete stores *)

Section FurtherConcrete.
#[local] Existing Instance rational_float.
#[local] Existing Instance sample_externals.

#[local] Ltac evaluate := vm_compute; reflexivity.

(** A reference that differs from every item of a list of references. *)
#[local] Ltac not_held :=
  let H := fresh in
  intros H;
  repeat (apply elem_of_cons in H as [H|H]; [discriminate H|]);
  by apply elem_of_nil in H.

(** A "Piano" text, then a 3/8 signature, on an empty track. *)
Lemma metadata_handlers_set_fields_witness :
  (∀ text,
     attr_of state_metadata 1%nat "text" = Some text →
     track_name (VRef 0%nat) (VRef 1%nat) 0 state_metadata
     = (Ok VNone, assign state_metadata 0%nat "name" text) ∧
     instrument_name (VRef 0%nat) (VRef 1%nat) 0 state_metadata
     = (Ok VNone, assign state_metadata 0%nat "instrument" text)) ∧
  (∀ num den,
     attr_of state_metadata 1%nat "numerator" = Some num →
     attr_of state_metadata 1%nat "denominator" = Some den →
     time_signature (VRef 0%nat) (VRef 1%nat) 0 state_metadata
     = (Ok VNone,
        assign (assign state_metadata 0%nat "timesig_den" den) 0%nat
          "timesig_num" num)).
Proof.
  apply (@metadata_handlers_set_fields rational_float
           state_metadata 0%nat 1%nat 0).
  exists []. vm_compute. reflexivity.
Defined.

(** A time signature with denominator 8 and no numerator. *)
Lemma time_signature_half_applied_witness :
  time_signature (VRef 0%nat) (VRef 1%nat) 0 state_half_signature
  = (Raise (AttributeError "numerator"),
     assign state_half_signature 0%nat "timesig_den" (VInt 8)) ∧
  attr_of (assign state_half_signature 0%nat "timesig_den" (VInt 8)) 0%nat
    "timesig_den" = Some (VInt 8) ∧
  attr_of (assign state_half_signature 0%nat "timesig_den" (VInt 8)) 0%nat
    "timesig_num" = attr_of state_half_signature 0%nat "timesig_num".
Proof.
  apply (@time_signature_half_applied rational_float
           state_half_signature 0%nat 1%nat 0 (VInt 8));
    [ vm_compute; reflexivity | vm_compute; reflexivity
    | exists []; vm_compute; reflexivity ].
Defined.

(** [set_division] with a track in the place of the pattern: the track
    has no [_division], the handler raises and nothing has changed. *)
Lemma failed_handler_leaves_state_witness :
  (handler_of h_set_division (VRef 0%nat) (VRef 2%nat) 1 state_forward).2
  = state_forward.
Proof.
  apply (@failed_handler_leaves_state rational_float sample_externals
           h_set_division (VRef 0%nat) (VRef 2%nat) 1 state_forward
           (AttributeError "_division"));
    [ discriminate | discriminate | discriminate | discriminate | ].
  simpl. unfold set_division. erewrite bind_raise; [reflexivity|].
  apply getattr_none;
    [ apply (items_of_is_Some _ _ [VRef 1%nat]); vm_compute; reflexivity
    | vm_compute; reflexivity ].
Defined.

(** [determine_delta] on the event carrying only an absolute tick: its
    tick is among the attributes left alone. *)
Lemma handler_write_set_witness :
  let σ' := (handler_of h_determine_delta (VRef 0%nat) (VRef 4%nat) 3
               state_absolute_tick).2 in
  trace σ' = trace state_absolute_tick ∧
  items_of σ' 4%nat = items_of state_absolute_tick 4%nat ∧
  (VRef 4%nat ≠ target h_determine_delta (VRef 0%nat) (VRef 4%nat)
   ∨ "tick" ∉ writes h_determine_delta →
   attr_of σ' 4%nat "tick" = attr_of state_absolute_tick 4%nat "tick").
Proof.
  apply (@handler_write_set rational_float sample_externals
           h_determine_delta (VRef 0%nat) (VRef 4%nat) 3
           state_absolute_tick 4%nat "tick");
    discriminate.
Defined.

(** The stream-start marker declaring three tracks. *)
Lemma create_tracks_outcome_witness :
  create_tracks (VRef 0%nat) (VRef 1%nat) 0 state_stream_start
  = (if 0 <? 3 then Raise (NameError "Track") else Ok VNone,
     state_stream_start).
Proof.
  apply (@create_tracks_outcome rational_float sample_externals
           state_stream_start 0%nat 1%nat 0 3 []);
    vm_compute; reflexivity.
Defined.

(** With the cursor at -1 the event goes to the last of the two tracks. *)
Lemma sort_events_delegates_witness :
  sort_events (VRef 0%nat) (VRef 3%nat) 0 state_negative_cursor
  = (match (invoke_method 2%nat "append" [VRef 3%nat]
              (heap state_negative_cursor)).1 with
     | Ok _ => Ok VNone
     | Raise x => Raise x
     end,
     {| heap := (invoke_method 2%nat "append" [VRef 3%nat]
                   (heap state_negative_cursor)).2;
        trace := trace state_negative_cursor
                 ++ [MethodCall 2%nat "append" [VRef 3%nat]] |}).
Proof.
  apply (@sort_events_delegates rational_float sample_externals
           state_negative_cursor 0%nat (VRef 3%nat) 0 (-1)
           [VRef 1%nat; VRef 2%nat] 2%nat []);
    first [ simpl; lia | vm_compute; reflexivity ].
Defined.

(** One track, cursor at 1. *)
Lemma sort_events_cursor_out_of_range_witness :
  sort_events (VRef 0%nat) (VRef 2%nat) 0 state_exhausted
  = (Raise IndexError, state_exhausted).
Proof.
  apply (@sort_events_cursor_out_of_range rational_float sample_externals
           state_exhausted 0%nat (VRef 2%nat) 0 1 [VRef 1%nat]);
    first [ simpl; lia | vm_compute; reflexivity ].
Defined.

(** Two tracks, cursor at 0: after the marker the event goes to the
    second track. *)
Lemma stop_track_then_sort_events_witness :
  let σ1 := assign state_two_tracks 0%nat "track_index" (VInt (0 + 1)) in
  (stop_track (VRef 0%nat) (VRef 3%nat) 0
   ≫= λ _, sort_events (VRef 0%nat) (VRef 3%nat) 1) state_two_tracks
  = (match (invoke_method 2%nat "append" [VRef 3%nat] (heap σ1)).1 with
     | Ok _ => Ok VNone
     | Raise x => Raise x
     end,
     {| heap := (invoke_method 2%nat "append" [VRef 3%nat] (heap σ1)).2;
        trace := trace state_two_tracks
                 ++ [MethodCall 2%nat "append" [VRef 3%nat]] |}).
Proof.
  apply (@stop_track_then_sort_events rational_float sample_externals
           state_two_tracks 0%nat (VRef 3%nat) (VRef 3%nat) 0 1 0
           [VRef 1%nat; VRef 2%nat] 2%nat []);
    first [ simpl; lia | vm_compute; reflexivity ].
Defined.

(** The event of delta 480 after one event, handled twice. *)
Lemma forward_handlers_idempotent_witness :
  (event_tick (VRef 0%nat) (VRef 2%nat) 1
   ≫= λ _, event_tick (VRef 0%nat) (VRef 2%nat) 1) state_forward
  = event_tick (VRef 0%nat) (VRef 2%nat) 1 state_forward ∧
  (event_time (VRef 0%nat) (VRef 2%nat) 1
   ≫= λ _, event_time (VRef 0%nat) (VRef 2%nat) 1) state_forward
  = event_time (VRef 0%nat) (VRef 2%nat) 1 state_forward ∧
  (event_delta_time (VRef 0%nat) (VRef 2%nat) 1
   ≫= λ _, event_delta_time (VRef 0%nat) (VRef 2%nat) 1) state_forward
  = event_delta_time (VRef 0%nat) (VRef 2%nat) 1 state_forward.
Proof.
  apply (@forward_handlers_idempotent rational_float sample_externals
           state_forward 0%nat 2%nat 1 [VRef 1%nat]
           (VInt 480) (VInt 480) (VInt 500000) (VInt 0) (VInt 0)
           (VFloat 500%Q) (VInt 480) (VFloat 500%Q));
    first [ simpl; lia | right; discriminate | vm_compute; reflexivity ].
Defined.

(** Three events at ticks 0, 10, 20 and a fourth of delta 5: tick 25. *)
Lemma event_tick_extends_resolved_ticks_witness :
  event_tick (VRef 0%nat) (VRef 4%nat)
    (Z.of_nat (length [VRef 1%nat; VRef 2%nat; VRef 3%nat]))
    state_three_events
  = (Ok VNone, assign state_three_events 4%nat "tick" (VInt (20 + 5))) ∧
  ticks_resolved (assign state_three_events 4%nat "tick" (VInt (20 + 5)))
    0 ([VRef 1%nat; VRef 2%nat; VRef 3%nat] ++ [VRef 4%nat])
  = Some (20 + 5).
Proof.
  apply (@event_tick_extends_resolved_ticks rational_float
           state_three_events 0%nat 4%nat
           [VRef 1%nat; VRef 2%nat; VRef 3%nat] 20 5);
    first [ not_held | vm_compute; reflexivity ].
Defined.

(** An event carrying only the absolute tick 50, appended after an event
    at tick 20: delta 30, and tick 50 again. *)
Lemma absolute_tick_round_trip_witness :
  (determine_delta (VRef 0%nat) (VRef 4%nat) 3
   ≫= λ _, event_tick (VRef 0%nat) (VRef 4%nat) 3) state_absolute_tick
  = (Ok VNone,
     assign (assign state_absolute_tick 4%nat "delta" (VInt (50 - 20)))
       4%nat "tick" (VInt (20 + (50 - 20)))) ∧
  (3 = Z.of_nat (length [VRef 1%nat; VRef 2%nat; VRef 3%nat]) →
   20 + (50 - 20) = 50).
Proof.
  apply (@absolute_tick_round_trip rational_float sample_externals
           state_absolute_tick 0%nat 4%nat 3
           [VRef 1%nat; VRef 2%nat; VRef 3%nat]
           (VInt 0) (VInt 0) 20 (VInt 0) 50 20);
    first [ simpl; lia | vm_compute; reflexivity ].
Defined.

(** The event of delta 480 is left as it is. *)
Lemma nonzero_delta_is_kept_witness :
  determine_delta (VRef 0%nat) (VRef 2%nat) 1 state_forward
  = (Ok VNone, state_forward).
Proof.
  apply (@nonzero_delta_is_kept rational_float sample_externals
           state_forward (VRef 0%nat) 2%nat 1 (VInt 480));
    vm_compute; reflexivity.
Defined.

(** A delta_time of 250 ms at division 480 and tempo 500000 gives delta
    240, although the event's tick and time are earlier than its
    predecessor's. *)
Lemma delta_time_takes_precedence_witness :
  determine_delta (VRef 0%nat) (VRef 2%nat) 1 state_delta_time
  = (Ok VNone, assign state_delta_time 2%nat "delta" (VInt 240)) ∧
  attr_of (assign state_delta_time 2%nat "delta" (VInt 240)) 2%nat "tick"
  = attr_of state_delta_time 2%nat "tick" ∧
  attr_of (assign state_delta_time 2%nat "delta" (VInt 240)) 2%nat "time"
  = attr_of state_delta_time 2%nat "time".
Proof.
  apply (@delta_time_takes_precedence rational_float sample_externals
           state_delta_time 0%nat 2%nat 1 (VInt 0) (VFloat 250%Q)
           (VInt 480) (VInt 500000) (VInt 240));
    vm_compute; reflexivity.
Defined.

(** A clock reading of 0 on a track started at 0. *)
Lemma time_profile_stamps_witness :
  time_profile (VRef 0%nat) (VRef 2%nat) 1 state_forward
  = (Ok VNone,
     assign (assign state_forward 2%nat "exit_time" (VFloat 0%Q)) 2%nat
       "exit_delta" (VFloat 0%Q)).
Proof.
  apply (@time_profile_stamps rational_float sample_externals
           state_forward state_forward 0%nat 2%nat 1
           (VFloat 0%Q) (VFloat 0%Q) (VFloat 0%Q)).
  - reflexivity.
  - apply (attr_of_is_Some _ _ "delta" (VInt 480)). vm_compute. reflexivity.
  - vm_compute. reflexivity.
  - vm_compute. reflexivity.
Defined.

(** Index -1 on a track that holds an event at tick 200: the offset is 0
    all the same. *)
Lemma forward_handlers_index_bounds_witness :
  (∀ tick,
     -1 ≤ 0 → py_add (VInt 0) (VInt 0) = Ok tick →
     event_tick (VRef 0%nat) (VRef 2%nat) (-1) state_time_only
     = (Ok VNone, assign state_time_only 2%nat "tick" tick)) ∧
  (Z.of_nat (length [VRef 1%nat]) < -1 →
   event_tick (VRef 0%nat) (VRef 2%nat) (-1) state_time_only
   = (Raise IndexError, state_time_only) ∧
   event_time (VRef 0%nat) (VRef 2%nat) (-1) state_time_only
   = (Raise IndexError, state_time_only)).
Proof.
  apply (@forward_handlers_index_bounds rational_float sample_externals
           state_time_only 0%nat 2%nat (-1) [VRef 1%nat] (VInt 0));
    vm_compute; reflexivity.
Defined.

(** C7.  [set_division] reads [container._division] (line 353), not the
    [divisions] that [start_pattern] assigns (line 134).  On a Pattern
    with the fields the spec gives it, at division 480, it raises
    [AttributeError] and the inserted Track keeps its division 48.  On a
    Pattern that also carries [_division = 48], after [start_pattern] has
    set [divisions] to 480 the inserted Track gets 48, not 480. *)
Theorem set_division_misses_divisions :
  set_division (VRef 0%nat) (VRef 1%nat) 0 state_new_track
  = (Raise (AttributeError "_division"), state_new_track) ∧
  attr_of state_new_track 0%nat "divisions" = Some (VInt 480) ∧
  attr_of state_new_track 1%nat "division" = Some (VInt 48) ∧
  let σ1 := assign state_private_division 0%nat "divisions" (VInt 480) in
  start_pattern (VRef 0%nat) (VRef 1%nat) 0 state_private_division
  = (Ok VNone, σ1) ∧
  attr_of σ1 0%nat "divisions" = Some (VInt 480) ∧
  set_division (VRef 0%nat) (VRef 2%nat) 0 σ1
  = (Ok (VBool true), assign σ1 2%nat "division" (VInt 48)) ∧
  attr_of (assign σ1 2%nat "division" (VInt 48)) 2%nat "division"
  = Some (VInt 48).
Proof.
  cbv zeta. split_and!.
  - unfold set_division. erewrite bind_raise; [reflexivity|].
    apply getattr_none; [|evaluate].
    apply (items_of_is_Some _ _ []). evaluate.
  - evaluate.
  - evaluate.
  - apply start_pattern_ok; [evaluate|].
    apply (items_of_is_Some _ _ []). evaluate.
  - evaluate.
  - apply set_division_ok; [evaluate|].
    apply (items_of_is_Some _ _ []). evaluate.
  - evaluate.
Qed.

End FurtherConcrete.
